(** * Miner dashboard backend: ingestion, price matching and metrics

    A shallow embedding of the Python backend (csv_parser.py,
    data_manager.py, price_csv_loader.py, metrics.py and the collapsing
    step of the query endpoints in main.py) together with the properties
    of its specification.

    Conventions of the embedding.
    - A Python function that can raise returns [Exc]; [try_except] is
      the [try: ... except Exception: ...] block.
    - A Python dict whose iteration order is observed is an association
      list in insertion order ([dict]); a dict used only through lookups
      is a [gmap].
    - A pandas table is a list of column names and a list of rows; a
      row maps a column name to its cell, and a missing cell (NaN, NaT,
      None) is an absent binding.  The index labels of a table are not
      part of a row.
    - numpy floats are carried as exact rationals; only the non-finite
      result of a division by zero is kept apart.  Rounding is outside
      the embedding. *)

From Stdlib Require Import ZArith QArith Qabs Qround Qcanon Lia List Permutation Sorted.
From Stdlib Require Import Ascii String.
From stdpp Require Import base option list gmap strings numbers sorting pretty.

Local Open Scope Z_scope.
Local Open Scope string_scope.

(** ** Python values shared by the modules *)

Inductive exception : Type :=
  | KeyError
  | ValueError
  | TypeError
  | ParserError
  | OSError.

Inductive Exc (A : Type) : Type :=
  | Return (a : A)
  | Raise (e : exception).
Arguments Return {A} a.
Arguments Raise {A} e.

#[global] Instance Exc_ret : MRet Exc := fun A a => Return a.
#[global] Instance Exc_bind : MBind Exc := fun A B f m =>
  match m with
  | Return a => f a
  | Raise e => Raise e
  end.

Definition try_except {A} (body : Exc A) (handler : exception → Exc A) : Exc A :=
  match body with
  | Return a => Return a
  | Raise e => handler e
  end.

(** A dict in insertion order.  [d[k] = v] overwrites the value of an
    existing key where it stands and appends a new key at the end. *)
Definition dict (K V : Type) : Type := list (K * V).

Section dict.
Context {K V : Type} `{EqDecision K}.

Fixpoint dict_get (d : dict K V) (k : K) : option V :=
  match d with
  | [] => None
  | (k', v) :: d' => if decide (k' = k) then Some v else dict_get d' k
  end.

Fixpoint dict_set (d : dict K V) (k : K) (v : V) : dict K V :=
  match d with
  | [] => [(k, v)]
  | (k', v') :: d' =>
      if decide (k' = k) then (k, v) :: d' else (k', v') :: dict_set d' k v
  end.

Definition dict_keys (d : dict K V) : list K := d.*1.

Definition dict_in (k : K) (d : dict K V) : bool :=
  bool_decide (is_Some (dict_get d k)).
End dict.

(** ** numpy (the part metrics.py uses) *)

Module np.

(** A float64: a finite value, or the inf/nan that a division by zero
    leaves behind (numpy warns and goes on). *)
Inductive float64 : Type :=
  | Finite (q : Q)
  | NonFinite.

Definition lift2 (f : Q → Q → Q) (x y : float64) : float64 :=
  match x, y with
  | Finite a, Finite b => Finite (f a b)
  | _, _ => NonFinite
  end.

Definition add := lift2 Qplus.
Definition sub := lift2 Qminus.
Definition mul := lift2 Qmult.

Definition div (x y : float64) : float64 :=
  match x, y with
  | Finite a, Finite b => if Qeq_bool b 0 then NonFinite else Finite (a / b)
  | _, _ => NonFinite
  end.

Definition abs (x : float64) : float64 :=
  match x with
  | Finite a => Finite (Qabs a)
  | NonFinite => NonFinite
  end.

(** [x != 0]; nan and inf differ from 0. *)
Definition ne0 (x : float64) : bool :=
  match x with
  | Finite a => negb (Qeq_bool a 0)
  | NonFinite => true
  end.

(** [x >= y] and [x <= y]; a comparison with nan is False. *)
Definition ge (x y : float64) : bool :=
  match x, y with
  | Finite a, Finite b => Qle_bool b a
  | _, _ => false
  end.

Definition le (x y : float64) : bool := ge y x.

Definition array (l : list Q) : list float64 := Finite <$> l.

Definition sum (a : list float64) : float64 := foldl add (Finite 0) a.

Definition len {A} (a : list A) : float64 := Finite (inject_Z (Z.of_nat (length a))).

(** [mask.sum()] of a boolean array: the number of True. *)
Definition count (mask : list bool) : float64 := len (filter (λ b, b = true) mask).

(** [a.mean()]: the sum over the number of elements. *)
Definition mean (a : list float64) : float64 := div (sum a) (len a).

(** [float(x)]: the value itself; the rational is put in lowest terms. *)
Definition to_float (x : float64) : float64 :=
  match x with
  | Finite a => Finite (Qred a)
  | NonFinite => NonFinite
  end.

End np.

(** ** metrics.py *)

Module MetricsCalculator.

(** A value of the metrics dict. *)
Inductive value : Type :=
  | Int (n : Z)
  | Float (x : np.float64)
  | Sqrt (x : np.float64).   (* float(np.sqrt(x)): the root is not rational *)

(** Truthiness of an optional list: [None] and [[]] are falsy. *)
Definition truthy {A} (o : option (list A)) : bool :=
  match o with
  | Some (_ :: _) => true
  | _ => false
  end.

(** The computation proper, from [preds = np.array(predictions)] on:
    the lists have the same, non-zero length here. *)
Definition compute_metrics
    (predictions actuals : list Q)
    (intervals_lower intervals_upper : option (list Q)) : dict string value :=
  let preds := np.array predictions in
  let acts := np.array actuals in
  let errors := zip_with np.sub acts preds in
  let mape :=
    np.mean ((λ x, np.mul x (np.Finite 100)) <$> zip_with np.div (np.abs <$> errors) acts) in
  let mae := np.mean (np.abs <$> errors) in
  let mse := np.mean ((λ e, np.mul e e) <$> errors) in
  let bias := np.mean errors in
  let bias_pct :=
    if np.ne0 (np.mean acts)
    then np.mul (np.div bias (np.mean acts)) (np.Finite 100)
    else np.Finite 0 in
  let metrics :=
    [ ("n_predictions", Int (Z.of_nat (length predictions)));
      ("mape", Float (np.to_float mape));
      ("mae", Float (np.to_float mae));
      ("rmse", Sqrt (np.to_float mse));
      ("bias", Float (np.to_float bias));
      ("bias_pct", Float (np.to_float bias_pct)) ] in
  if truthy intervals_lower && truthy intervals_upper then
    let lower := default [] intervals_lower in
    let upper := default [] intervals_upper in
    if bool_decide (length lower = length actuals)
       && bool_decide (length upper = length actuals) then
      let intervals_lower_arr := np.array lower in
      let intervals_upper_arr := np.array upper in
      let in_interval :=
        zip_with andb (zip_with np.ge acts intervals_lower_arr)
                      (zip_with np.le acts intervals_upper_arr) in
      let coverage :=
        np.mul (np.div (np.count in_interval) (np.len acts)) (np.Finite 100) in
      let interval_widths := zip_with np.sub intervals_upper_arr intervals_lower_arr in
      let avg_interval_width := np.mean interval_widths in
      let avg_interval_width_pct :=
        if np.ne0 (np.mean acts)
        then np.mul (np.div avg_interval_width (np.mean acts)) (np.Finite 100)
        else np.Finite 0 in
      dict_set (dict_set (dict_set metrics
        "coverage" (Float (np.to_float coverage)))
        "avg_interval_width" (Float (np.to_float avg_interval_width)))
        "avg_interval_width_pct" (Float (np.to_float avg_interval_width_pct))
    else metrics
  else metrics.

Definition calculate_prediction_metrics
    (predictions actuals : list Q)
    (intervals_lower intervals_upper : option (list Q)) : dict string value :=
  if bool_decide (predictions = []) || bool_decide (actuals = []) then []
  else
    let min_len := Nat.min (length predictions) (length actuals) in
    let '(predictions, actuals) :=
      if bool_decide (length predictions ≠ length actuals)
      then (take min_len predictions, take min_len actuals)
      else (predictions, actuals) in
    if bool_decide (length predictions = 0%nat) then []
    else compute_metrics predictions actuals intervals_lower intervals_upper.

End MetricsCalculator.


(** ** pandas (the part the backend uses) *)

Module pd.

(** A cell that is not missing.  An instant is a timezone-aware UTC
    time, counted in nanoseconds since the epoch. *)
Inductive Cell : Type :=
  | Timestamp (t : Z)
  | Number (x : Qc)
  | Text (s : string).

#[global] Instance Cell_eq_dec : EqDecision Cell.
Proof. solve_decision. Defined.

Record DataFrame : Type := {
  columns : list string;
  rows : list (gmap string Cell);
}.

#[global] Instance DataFrame_eq_dec : EqDecision DataFrame.
Proof. solve_decision. Defined.

(** [pd.DataFrame()] *)
Definition DataFrame_ : DataFrame := {| columns := []; rows := [] |}.

(** [df.empty]: no column or no row. *)
Definition empty (df : DataFrame) : bool :=
  bool_decide (columns df = []) || bool_decide (rows df = []).

(** [df[c]], once [c] is known to be a column. *)
Definition column (c : string) (df : DataFrame) : list (option Cell) :=
  (λ r, r !! c) <$> rows df.

(** [df[c]]: KeyError when there is no such column. *)
Definition getitem (df : DataFrame) (c : string) : Exc (list (option Cell)) :=
  if decide (c ∈ columns df) then Return (column c df) else Raise KeyError.

(** [df[c] = vals] with [vals] aligned on the index of [df]: a row
    without a value gets a missing cell. *)
Definition assign (c : string) (v : option Cell) (r : gmap string Cell) : gmap string Cell :=
  match v with
  | Some x => <[c := x]> r
  | None => delete c r
  end.

Definition setitem (df : DataFrame) (c : string) (vals : list (option Cell)) : DataFrame :=
  {| columns := if decide (c ∈ columns df) then columns df else columns df ++ [c];
     rows := imap (λ i r, assign c (mjoin (vals !! i)) r) (rows df) |}.

(** [df[mask]] *)
Definition select (keep : gmap string Cell → Prop) `{!∀ r, Decision (keep r)}
    (df : DataFrame) : DataFrame :=
  {| columns := columns df; rows := filter keep (rows df) |}.

(** [pd.concat([a, b], ignore_index=True)]: the rows of [a] then those
    of [b], over the columns of [a] followed by the new ones of [b]. *)
Definition concat (a b : DataFrame) : DataFrame :=
  {| columns := columns a ++ filter (λ c, c ∉ columns a) (columns b);
     rows := rows a ++ rows b |}.

(** [df.drop_duplicates(subset=[c], keep='last')]: a row is dropped
    when a later row has the same cell in column [c]; missing cells
    count as equal to each other. *)
Fixpoint drop_duplicates_rows (c : string) (rs : list (gmap string Cell))
    : list (gmap string Cell) :=
  match rs with
  | [] => []
  | r :: rs' =>
      if decide (r !! c ∈ (λ r', r' !! c) <$> rs')
      then drop_duplicates_rows c rs'
      else r :: drop_duplicates_rows c rs'
  end.

Definition drop_duplicates (c : string) (df : DataFrame) : DataFrame :=
  {| columns := columns df; rows := drop_duplicates_rows c (rows df) |}.

(** The sort key of a cell of a datetime column: its instant, or
    [None] for NaT.  The tables of this program are sorted on the
    columns that parse_csv has converted with [pd.to_datetime]; cells
    of another kind have no place in such a column and are keyed like
    NaT. *)
Definition instant (v : option Cell) : option Z :=
  match v with
  | Some (Timestamp t) => Some t
  | _ => None
  end.

(** Order of [sort_values(ascending=False)]: later instants first,
    NaT last. *)
Definition desc (a b : option Z) : Prop :=
  match a, b with
  | Some x, Some y => (y ≤ x)%Z
  | _, None => True
  | None, Some _ => False
  end.

(** Order of [sort_values(ascending=True)] and of the group keys:
    earlier instants first, NaT last. *)
Definition asc (a b : option Z) : Prop :=
  match a, b with
  | Some x, Some y => (x ≤ y)%Z
  | _, None => True
  | None, Some _ => False
  end.

#[global] Instance desc_dec a b : Decision (desc a b).
Proof. destruct a, b; simpl; apply _. Defined.

#[global] Instance asc_dec a b : Decision (asc a b).
Proof. destruct a, b; simpl; apply _. Defined.

Definition by_key (R : relation (option Z)) (c : string) : relation (gmap string Cell) :=
  λ r1 r2, R (instant (r1 !! c)) (instant (r2 !! c)).

#[global] Instance by_key_dec R `{!RelDecision R} c r1 r2 : Decision (by_key R c r1 r2).
Proof. unfold by_key. apply _. Defined.

(** [df.sort_values(c, ascending=...)].  pandas sorts with quicksort,
    which fixes no order among rows of equal key; on rows of distinct
    keys every sort returns the same table. *)
Definition sort_values (c : string) (ascending : bool) (df : DataFrame) : DataFrame :=
  {| columns := columns df;
     rows := if ascending
             then merge_sort (by_key asc c) (rows df)
             else merge_sort (by_key desc c) (rows df) |}.

(** [df.head(n)]; a negative [n] leaves out the last [-n] rows. *)
Definition head (n : Z) (df : DataFrame) : DataFrame :=
  {| columns := columns df;
     rows := if decide (0 ≤ n)%Z then take (Z.to_nat n) (rows df)
             else take (length (rows df) - Z.to_nat (- n)) (rows df) |}.

(** [df.iloc[::-1]] *)
Definition reversed (df : DataFrame) : DataFrame :=
  {| columns := columns df; rows := reverse (rows df) |}.

(** [df.groupby(c).first().reset_index()]: one row per distinct
    non-missing key, keys ascending; in each group every column takes
    its first non-missing cell (GroupBy.first skips missing values
    column by column), which on rows as maps is the left-biased union
    of the group. *)
Definition group_keys (c : string) (df : DataFrame) : list (option Cell) :=
  merge_sort (λ a b, asc (instant a) (instant b))
    (remove_dups (filter is_Some (column c df))).

Definition groupby_first (c : string) (df : DataFrame) : DataFrame :=
  {| columns := c :: filter (λ c', c' ≠ c) (columns df);
     rows := (λ k, ⋃ filter (λ r, r !! c = k) (rows df)) <$> group_keys c df |}.

(** [a.isin(b).all(axis=1)] on tables indexed 0..n-1: the row at
    position [i] of [a] passes when every column of [a] is a column of
    [b] and holds, in row [i] of [b], the same non-missing cell. *)
Definition isin_all (a b : DataFrame) : list bool :=
  imap (λ i r,
    forallb (λ c,
      match r !! c, (rows b !! i) ≫= (λ r', r' !! c) with
      | Some x, Some y => bool_decide (c ∈ columns b) && bool_decide (x = y)
      | _, _ => false
      end) (columns a)) (rows a).

End pd.

(** ** Python strings *)

Module py.

(** ASCII whitespace, the characters [str.strip] removes (the
    whitespace of Unicode beyond ASCII is not modelled). *)
Definition isspace (a : ascii) : bool :=
  let n := nat_of_ascii a in
  bool_decide (9 ≤ n ≤ 13)%nat || bool_decide (28 ≤ n ≤ 32)%nat.

Fixpoint lstrip (s : string) : string :=
  match s with
  | String a s' => if isspace a then lstrip s' else s
  | EmptyString => EmptyString
  end.

Definition strip (s : string) : string :=
  String.rev (lstrip (String.rev (lstrip s))).

Definition lower_ascii (a : ascii) : ascii :=
  let n := nat_of_ascii a in
  if bool_decide (65 ≤ n ≤ 90)%nat then ascii_of_nat (n + 32) else a.

(** [s.lower()] on ASCII letters. *)
Fixpoint lower (s : string) : string :=
  match s with
  | String a s' => String (lower_ascii a) (lower s')
  | EmptyString => EmptyString
  end.

Definition endswith (s suffix : string) : bool :=
  String.prefix (String.rev suffix) (String.rev s).

(** [s.replace(old, new)] for a non-empty [old]: every occurrence,
    left to right, without overlap.  [skip] counts the characters of
    an occurrence still to be passed over. *)
Fixpoint replace_from (old new : string) (skip : nat) (s : string) : string :=
  match s with
  | EmptyString => EmptyString
  | String a s' =>
      match skip with
      | S n => replace_from old new n s'
      | O =>
          if String.prefix old s
          then new +:+ replace_from old new (String.length old - 1) s'
          else String a (replace_from old new 0 s')
      end
  end.

Definition replace (s old new : string) : string := replace_from old new 0 s.

End py.

(** ** Library functions taken as parameters

    What these functions return depends on text formats (CSV syntax,
    date formats, number syntax, the printed form of a cell) that the
    backend does not look into.  The embedding is stated for any such
    functions; [Raise] is the exception the Python function throws. *)

Class Library : Type := {
  (** [pd.read_csv(StringIO(text))] *)
  read_csv : string → Exc pd.DataFrame;
  (** [pd.to_datetime(column, utc=True)], on the cells of a column *)
  to_datetime : list (option pd.Cell) → Exc (list (option pd.Cell));
  (** [str(x)], which is also [column.astype(str)] cell by cell *)
  str : option pd.Cell → string;
  (** [float(s)] for a string *)
  float_of_str : string → Exc Qc;
  (** [pd.to_datetime(column) >= cutoff] of get_recent_predictions; the
      store only sees whether it raises *)
  compare_with_cutoff : list (option pd.Cell) → Exc unit;
}.

(** ** csv_parser.py *)

Module CSVParser.
Section CSVParser.
Context `{!Library}.

(** [df[c] = pd.to_datetime(df[c], utc=True)] *)
Definition convert (c : string) (df : pd.DataFrame) : Exc pd.DataFrame :=
  vals ← to_datetime (pd.column c df);
  mret (pd.setitem df c vals).

Definition parse_csv (csv_content : string) : Exc pd.DataFrame :=
  if bool_decide (csv_content = "") || bool_decide (py.strip csv_content = "")
  then Return pd.DataFrame_
  else
    try_except
      (df ← read_csv csv_content;
       df ← (if decide ("timestamp" ∈ pd.columns df) then convert "timestamp" df else mret df);
       df ← (if decide ("datetime" ∈ pd.columns df) then convert "datetime" df else mret df);
       mret df)
      (λ _, Return pd.DataFrame_).

Definition detect_assets (df : pd.DataFrame) : list string :=
  (λ col, py.replace col "_prediction" "") <$>
    filter (λ col, py.endswith col "_prediction" && negb (py.endswith col "_raw_prediction"))
      (pd.columns df).

(** [row.get(c, default)] for a row of a table with columns [cols]. *)
Definition row_get (cols : list string) (row : gmap string pd.Cell)
    (c : string) (default : option pd.Cell) : option pd.Cell :=
  if decide (c ∈ cols) then row !! c else default.

(** [float(x)] *)
Definition float (x : pd.Cell) : Exc Qc :=
  match x with
  | pd.Number q => Return q
  | pd.Text s => float_of_str s
  | pd.Timestamp _ => Raise TypeError
  end.

(** [pred_data[c] = float(row[c]) if pd.notna(row[c]) else None],
    done when [c in row]. *)
Definition set_float (cols : list string) (row : gmap string pd.Cell) (c : string)
    (pred_data : dict string (option pd.Cell)) : Exc (dict string (option pd.Cell)) :=
  if decide (c ∈ cols) then
    match row !! c with
    | Some x => q ← float x; mret (dict_set pred_data c (Some (pd.Number q)))
    | None => mret (dict_set pred_data c None)
    end
  else mret pred_data.

Fixpoint add_assets (cols : list string) (row : gmap string pd.Cell) (assets : list string)
    (pred_data : dict string (option pd.Cell)) : Exc (dict string (option pd.Cell)) :=
  match assets with
  | [] => mret pred_data
  | asset :: assets' =>
      pred_data ← set_float cols row (asset +:+ "_prediction") pred_data;
      pred_data ← set_float cols row (asset +:+ "_raw_prediction") pred_data;
      pred_data ← set_float cols row (asset +:+ "_interval_lower") pred_data;
      pred_data ← set_float cols row (asset +:+ "_interval_upper") pred_data;
      add_assets cols row assets' pred_data
  end.

(** The body of the loop over the rows, shared with the predictions
    endpoint of main.py. *)
Definition pred_data_of (cols : list string) (assets : list string)
    (row : gmap string pd.Cell) : Exc (dict string (option pd.Cell)) :=
  add_assets cols row assets
    [ ("timestamp", row_get cols row "timestamp" (row_get cols row "datetime" (Some (pd.Text ""))));
      ("datetime", Some (pd.Text (if decide ("datetime" ∈ cols) then str (row !! "datetime") else "")));
      ("validator_hotkey", row_get cols row "validator_hotkey" (Some (pd.Text "")));
      ("assets", row_get cols row "assets" (Some (pd.Text "")));
      ("processing_time_seconds",
         row_get cols row "processing_time_seconds" (Some (pd.Number 0%Qc))) ].

Definition get_latest_predictions (df : pd.DataFrame) (limit : Z)
    : Exc (list (dict string (option pd.Cell))) :=
  if pd.empty df then mret []
  else
    let df_sorted :=
      if decide ("timestamp" ∈ pd.columns df) then pd.sort_values "timestamp" false df
      else if decide ("datetime" ∈ pd.columns df) then pd.sort_values "datetime" false df
      else pd.reversed df in
    let latest := pd.head limit df_sorted in
    let assets := detect_assets df in
    mapM (pred_data_of (pd.columns latest) assets) (pd.rows latest).

Definition get_new_rows (old_df new_df : pd.DataFrame) : Exc pd.DataFrame :=
  if pd.empty old_df then mret new_df
  else if pd.empty new_df then mret pd.DataFrame_
  else
    let timestamp_col :=
      if decide ("timestamp" ∈ pd.columns new_df) then "timestamp" else "datetime" in
    if decide (timestamp_col ∉ pd.columns new_df) then
      mret {| pd.columns := pd.columns new_df;
              pd.rows := fst <$> filter (λ rb, negb rb.2)
                                   (zip (pd.rows new_df) (pd.isin_all new_df old_df)) |}
    else
      old_col ← pd.getitem old_df timestamp_col;
      new_col ← pd.getitem new_df timestamp_col;
      let old_timestamps : gset string := list_to_set (str <$> old_col) in
      let new_timestamps : gset string := list_to_set (str <$> new_col) in
      let added_timestamps := new_timestamps ∖ old_timestamps in
      if decide (added_timestamps = ∅) then mret pd.DataFrame_
      else mret (pd.select (λ r, str (r !! timestamp_col) ∈ added_timestamps) new_df).

End CSVParser.
End CSVParser.

(** ** data_manager.py *)

Module DataManager.
Section DataManager.
Context `{!Library}.

(** The tables of the store.  The statistics dict, which is computed
    from a table and the clock, and the lock are left out: every call
    below runs from its first line to its last under the lock. *)
Record t : Type := { miner_data : gmap string pd.DataFrame }.

Definition timestamp_col (df : pd.DataFrame) : string :=
  if decide ("timestamp" ∈ pd.columns df) then "timestamp" else "datetime".

(** What [_update_stats] does to the store.  It hands the stored table
    to [MetricsCalculator.get_recent_predictions] and then to
    [get_pending_evaluations], whose line
    [df['pred_time'] = pd.to_datetime(df[timestamp_col], utc=True)]
    writes a column into that very table.  An exception raised on the
    way leaves the table as it was. *)
Definition _update_stats (self : t) (miner_name : string) : t :=
  match miner_data self !! miner_name with
  | None => self
  | Some df =>
      if pd.empty df then self
      else if decide (timestamp_col df ∈ pd.columns df) then
        match compare_with_cutoff (pd.column (timestamp_col df) df),
              to_datetime (pd.column (timestamp_col df) df) with
        | Return _, Return pred_time =>
            {| miner_data := <[miner_name := pd.setitem df "pred_time" pred_time]> (miner_data self) |}
        | _, _ => self
        end
      else self
  end.

(** The store after [update_miner_data(miner_name, df)]. *)
Definition update_miner_data (self : t) (miner_name : string) (df : pd.DataFrame) : t :=
  let self :=
    match miner_data self !! miner_name with
    | Some existing =>
        let combined := pd.concat existing df in
        let combined :=
          if decide (timestamp_col combined ∈ pd.columns combined)
          then pd.sort_values (timestamp_col combined) false
                 (pd.drop_duplicates (timestamp_col combined) combined)
          else combined in
        {| miner_data := <[miner_name := combined]> (miner_data self) |}
    | None =>
        {| miner_data := <[miner_name := df]> (miner_data self) |}
    end in
  _update_stats self miner_name.

Definition get_miner_data (self : t) (miner_name : string) : option pd.DataFrame :=
  miner_data self !! miner_name.

(** [get_latest_predictions(miner_name, limit)] *)
Definition get_latest_predictions (self : t) (miner_name : string) (limit : Z)
    : Exc (list (dict string (option pd.Cell))) :=
  match miner_data self !! miner_name with
  | None => mret []
  | Some df =>
      if pd.empty df then mret []
      else CSVParser.get_latest_predictions df limit
  end.

End DataManager.
End DataManager.

(** ** main.py: the rows the query endpoints answer with *)

Module main.
Section main.
Context `{!Library}.

(** [get_predictions], from the table read for the miner on. *)
Definition get_predictions (df : pd.DataFrame) (limit : Z)
    : Exc (list (dict string (option pd.Cell))) :=
  if pd.empty df then mret []
  else
    let timestamp_col :=
      if decide ("timestamp" ∈ pd.columns df) then "timestamp" else "datetime" in
    if decide (timestamp_col ∉ pd.columns df) then
      CSVParser.get_latest_predictions df limit
    else
      let df_grouped := pd.groupby_first timestamp_col df in
      let df_sorted := pd.sort_values timestamp_col false df_grouped in
      let df_latest := pd.head limit df_sorted in
      let assets := CSVParser.detect_assets df in
      mapM (CSVParser.pred_data_of (pd.columns df_latest) assets) (pd.rows df_latest).

(** [pd.to_datetime(text, utc=True)] of one string. *)
Definition to_datetime_scalar (text : string) : Exc (option Z) :=
  vals ← to_datetime [Some (pd.Text text)];
  mret (pd.instant (mjoin (vals !! 0%nat))).

(** [cell >= bound] and [cell <= bound]; a comparison with NaT is
    False. *)
Definition ge_instant (v : option pd.Cell) (bound : option Z) : bool :=
  match pd.instant v, bound with
  | Some t, Some b => bool_decide (b ≤ t)%Z
  | _, _ => false
  end.

Definition le_instant (v : option pd.Cell) (bound : option Z) : bool :=
  match pd.instant v, bound with
  | Some t, Some b => bool_decide (t ≤ b)%Z
  | _, _ => false
  end.

(** [df[df[c] >= bound]] and [df[df[c] <= bound]] *)
Definition at_or_after (c : string) (bound : option Z) (df : pd.DataFrame) : pd.DataFrame :=
  pd.select (λ r, ge_instant (r !! c) bound) df.

Definition at_or_before (c : string) (bound : option Z) (df : pd.DataFrame) : pd.DataFrame :=
  pd.select (λ r, le_instant (r !! c) bound) df.

(** [get_asset_data]: the rows it goes through ([rows_to_process]),
    from the table read for the miner.  [start_time] and [end_time]
    are the optional query strings. *)
Definition rows_to_process (df : pd.DataFrame) (start_time end_time : option string)
    (limit : Z) : pd.DataFrame :=
  let given (o : option string) := bool_decide (o ≠ None ∧ o ≠ Some "") in
  let timestamp_col :=
    if decide ("timestamp" ∈ pd.columns df) then "timestamp" else "datetime" in
  let df_sorted :=
    if decide (timestamp_col ∈ pd.columns df) then
      let df_grouped := pd.groupby_first timestamp_col df in
      let df_sorted := pd.sort_values timestamp_col false df_grouped in
      if given start_time || given end_time then
        let after_start :=
          if given start_time then
            start_dt ← to_datetime_scalar (default "" start_time);
            mret (at_or_after timestamp_col start_dt df_sorted)
          else mret df_sorted in
        match after_start with
        | Raise _ => df_sorted
        | Return df_started =>
            if given end_time then
              match to_datetime_scalar (default "" end_time) with
              | Raise _ => df_started
              | Return end_dt => at_or_before timestamp_col end_dt df_started
              end
            else df_started
        end
      else df_sorted
    else pd.reversed df in
  if given start_time || given end_time then df_sorted
  else pd.head limit df_sorted.

End main.
End main.

(** ** price_csv_loader.py *)

Module PriceCSVLoader.
Section PriceCSVLoader.
Context `{!Library}.

(** The files the loader looks at: [path.exists()],
    [path.stat().st_mtime] and the text [pd.read_csv(path)] reads. *)
Record Disk : Type := {
  exists_ : string → bool;
  st_mtime : string → Exc Q;
  read_text : string → Exc string;
}.

Definition REAL_PRICE_DIR : string := "../precog_lstm/data/real_price".

Definition ASSET_CSV_MAP : dict string string :=
  [("btc", "btc_7d.csv"); ("eth", "eth_7d.csv"); ("tao", "tao_7d.csv")].

Definition ASSET_CSV_FALLBACK : dict string string :=
  [("btc", "btc.csv"); ("eth", "eth.csv"); ("tao", "tao.csv")].

(** A price of the lookup cache: [float(row['close'])], nan for a
    missing cell. *)
Definition price : Type := option Qc.

(** The class attributes.  The keys of a lookup are the rounded
    instants of the price rows, [None] standing for NaT. *)
Record t : Type := {
  _price_cache : gmap string pd.DataFrame;
  _price_lookup_cache : gmap string (dict (option Z) price);
  _file_mtime_cache : gmap string Q;
}.

Definition path (dir name : string) : string := dir +:+ "/" +:+ name.

Definition minute_ns : Z := 60000000000.
Definition hour_ns : Z := 60 * minute_ns.

(** [dt.minute] of a UTC instant. *)
Definition minute (dt : Z) : Z := (dt / minute_ns) mod 60.

(** [dt.replace(minute=m, second=0, microsecond=0)]: the hour and the
    nanoseconds below the microsecond stay (a Python datetime has
    none). *)
Definition replace (dt : Z) (m : Z) : Z :=
  dt - dt mod hour_ns + m * minute_ns + dt mod 1000.

(** The 5-minute bucket of an instant. *)
Definition rounded (dt : Z) : Z := replace dt ((minute dt / 5) * 5).

(** The lambda of the lookup build, on a cell of the timestamp
    column: NaT stays NaT, a cell that is no datetime has no
    [minute] (AttributeError). *)
Definition timestamp_rounded (v : option pd.Cell) : Exc (option pd.Cell) :=
  match v with
  | None => mret None
  | Some (pd.Timestamp dt) => mret (Some (pd.Timestamp (rounded dt)))
  | Some _ => Raise TypeError
  end.

(** The cells of a row of [df.iterrows()] are put in one Series.  When
    no cell of the row is a number or a text, that Series is inferred
    to hold datetimes and a missing cell of it reads as NaT. *)
Definition datetimes_only (cols : list string) (row : gmap string pd.Cell) : bool :=
  forallb (λ c, match row !! c with
                | Some (pd.Timestamp _) | None => true
                | Some _ => false
                end) cols.

(** [float(row['close'])]: nan for a missing cell, but in a row of
    datetimes only, where the missing cell is NaT and [float] raises. *)
Definition float_close (cols : list string) (row : gmap string pd.Cell) : Exc price :=
  match row !! "close" with
  | None => if datetimes_only cols row then Raise TypeError else mret None
  | Some x => q ← CSVParser.float x; mret (Some q)
  end.

(** [for _, row in df.iterrows(): lookup[row['timestamp_rounded']] = float(row['close'])] *)
Fixpoint build_lookup (cols : list string) (rows : list (gmap string pd.Cell))
    (lookup : dict (option Z) price) : Exc (dict (option Z) price) :=
  match rows with
  | [] => mret lookup
  | row :: rows' =>
      p ← float_close cols row;
      build_lookup cols rows' (dict_set lookup (pd.instant (row !! "timestamp_rounded")) p)
  end.

(** The [try] block that loads the file, as a state change and the
    value returned; the assignments made before an exception stay. *)
Definition load_from_file (disk : Disk) (cls : t) (key csv_file : string)
    : t * option pd.DataFrame :=
  match (text ← read_text disk csv_file;
         df ← read_csv text;
         if decide ("timestamp" ∈ pd.columns df)
         then CSVParser.convert "timestamp" df else mret df) with
  | Raise _ => (cls, None)
  | Return df =>
      if decide ("close" ∉ pd.columns df) then (cls, None)
      else
        let cls := {| _price_cache := <[key := df]> (_price_cache cls);
                      _price_lookup_cache := _price_lookup_cache cls;
                      _file_mtime_cache :=
                        match st_mtime disk csv_file with
                        | Return m => <[key := m]> (_file_mtime_cache cls)
                        | Raise _ => _file_mtime_cache cls
                        end |} in
        match (col ← pd.getitem df "timestamp"; mapM timestamp_rounded col) with
        | Raise _ => (cls, None)
        | Return rounded_col =>
            let df := pd.setitem df "timestamp_rounded" rounded_col in
            let cls := {| _price_cache := <[key := df]> (_price_cache cls);
                          _price_lookup_cache := _price_lookup_cache cls;
                          _file_mtime_cache := _file_mtime_cache cls |} in
            match build_lookup (pd.columns df) (pd.rows df) [] with
            | Raise _ => (cls, None)
            | Return lookup =>
                ({| _price_cache := _price_cache cls;
                    _price_lookup_cache := <[key := lookup]> (_price_lookup_cache cls);
                    _file_mtime_cache := _file_mtime_cache cls |}, Some df)
            end
        end
  end.

Definition _load_price_csv (disk : Disk) (cls : t) (asset : string) (force_reload : bool)
    : t * option pd.DataFrame :=
  let key := py.lower asset in
  match dict_get ASSET_CSV_MAP key with
  | None => (cls, None)
  | Some name =>
      let csv_file := path REAL_PRICE_DIR name in
      let csv_file :=
        if exists_ disk csv_file then csv_file
        else match dict_get ASSET_CSV_FALLBACK key with
             | Some fallback_name =>
                 if bool_decide (fallback_name ≠ "") then path REAL_PRICE_DIR fallback_name
                 else csv_file
             | None => csv_file
             end in
      if negb (exists_ disk csv_file) then (cls, None)
      else
        match (if negb force_reload then _price_cache cls !! key else None) with
        | Some cached =>
            match st_mtime disk csv_file with
            | Return current_mtime =>
                let cached_mtime := default 0%Q (_file_mtime_cache cls !! key) in
                if Qle_bool current_mtime cached_mtime then (cls, Some cached)
                else
                  load_from_file disk
                    {| _price_cache := delete key (_price_cache cls);
                       _price_lookup_cache := delete key (_price_lookup_cache cls);
                       _file_mtime_cache := _file_mtime_cache cls |}
                    key csv_file
            | Raise _ => load_from_file disk cls key csv_file
            end
        | None => load_from_file disk cls key csv_file
        end
  end.

Definition asset_map : dict string string :=
  [("tao_bittensor", "tao"); ("tao", "tao"); ("btc", "btc"); ("eth", "eth")].

Definition second_ns : Z := 1000000000.

(** The loop over [lookup.keys()]: the state is [closest_time] and
    [min_diff], [None] being [float('inf')].  [diff] is
    [abs((price_time - eval_rounded).total_seconds())], kept in
    nanoseconds; for a NaT key it is nan and both tests fail. *)
Definition below (diff : Z) (min_diff : option Z) : bool :=
  match min_diff with
  | Some m => bool_decide (diff < m)%Z
  | None => true
  end.

Definition closest_step (eval_rounded : Z) (st : option Z * option Z) (price_time : option Z)
    : option Z * option Z :=
  match price_time with
  | None => st
  | Some pt =>
      let diff := Z.abs (pt - eval_rounded) in
      if below diff st.2 && bool_decide (diff ≤ 300 * second_ns)%Z
      then (Some pt, Some diff)
      else st
  end.

Definition closest (lookup : dict (option Z) price) (eval_rounded : Z) : option Z :=
  (foldl (closest_step eval_rounded) (None, None) (dict_keys lookup)).1.

(** The lookup of one instant, shared by both functions below:
    [Some p] is the price found, [None] is Python's [None]. *)
Definition resolve (lookup : dict (option Z) price) (eval_time : Z) : option price :=
  let eval_rounded := rounded eval_time in
  match dict_get lookup (Some eval_rounded) with
  | Some p => Some p
  | None =>
      match closest lookup eval_rounded with
      | Some closest_time => dict_get lookup (Some closest_time)
      | None => None
      end
  end.

Definition get_price_at_time (disk : Disk) (cls : t) (asset : string) (eval_time : Z)
    : t * option price :=
  let api_asset := default (py.lower asset) (dict_get asset_map (py.lower asset)) in
  let '(cls, df) := _load_price_csv disk cls api_asset false in
  match df with
  | None => (cls, None)
  | Some df =>
      if pd.empty df then (cls, None)
      else
        let lookup := default [] (_price_lookup_cache cls !! api_asset) in
        (cls, resolve lookup eval_time)
  end.

Definition fetch_prices_batch (disk : Disk) (cls : t) (asset : string) (eval_times : list Z)
    : t * dict Z (option price) :=
  if bool_decide (eval_times = []) then (cls, [])
  else
    let api_asset := default (py.lower asset) (dict_get asset_map (py.lower asset)) in
    let '(cls, df) := _load_price_csv disk cls api_asset false in
    match df with
    | None => (cls, [])
    | Some df =>
        if pd.empty df then (cls, [])
        else
          let lookup := default [] (_price_lookup_cache cls !! api_asset) in
          (cls, foldl (λ result eval_time, dict_set result eval_time (resolve lookup eval_time))
                  [] eval_times)
    end.

(** [load_prices(asset)]: the number of indexed buckets per asset
    asked for, 0 for a table that does not load or is empty.  The count
    is read from the lookup cache under the name as it was given. *)
Definition load_prices (disk : Disk) (cls : t) (asset : option string)
    : t * dict string Z :=
  let assets_to_load :=
    match asset with
    | Some a => if bool_decide (a ≠ "") then [a] else dict_keys ASSET_CSV_MAP
    | None => dict_keys ASSET_CSV_MAP
    end in
  foldl (λ '(cls, results) asset_name,
           let '(cls, df) := _load_price_csv disk cls asset_name false in
           match df with
           | None => (cls, dict_set results asset_name 0%Z)
           | Some df =>
               if pd.empty df then (cls, dict_set results asset_name 0%Z)
               else
                 let count :=
                   length (default [] (_price_lookup_cache cls !! asset_name)) in
                 (cls, dict_set results asset_name (Z.of_nat count))
           end)
    (cls, []) assets_to_load.

(** [clear_cache(asset)] *)
Definition clear_cache (cls : t) (asset : option string) : t :=
  match asset with
  | Some a =>
      if bool_decide (a ≠ "") then
        let asset_lower := py.lower a in
        {| _price_cache := delete asset_lower (_price_cache cls);
           _price_lookup_cache := delete asset_lower (_price_lookup_cache cls);
           _file_mtime_cache := delete asset_lower (_file_mtime_cache cls) |}
      else {| _price_cache := ∅; _price_lookup_cache := ∅; _file_mtime_cache := ∅ |}
  | None => {| _price_cache := ∅; _price_lookup_cache := ∅; _file_mtime_cache := ∅ |}
  end.

End PriceCSVLoader.
End PriceCSVLoader.

(** ** A small instance of the library functions

    Used to run the functions above on concrete inputs.  It reads
    comma-separated text without quoting, ISO dates written
    [YYYY-MM-DD HH:MM:SS] (or with [T]), optionally followed by [Z] or
    [+00:00], and plain decimal numbers; on such inputs it returns what
    pandas returns.  Like pandas it raises on a record that has more
    fields than the header and on a date it cannot read. *)

Module simple.

Fixpoint split_from (sep : ascii) (s : string) (field : string) : list string :=
  match s with
  | EmptyString => [String.rev field]
  | String a s' =>
      if decide (a = sep) then String.rev field :: split_from sep s' EmptyString
      else split_from sep s' (String a field)
  end.

(** [s.split(sep)] *)
Definition split (sep : ascii) (s : string) : list string := split_from sep s EmptyString.

Definition digit (a : ascii) : option Z :=
  let n := nat_of_ascii a in
  if bool_decide (48 ≤ n ≤ 57)%nat then Some (Z.of_nat (n - 48)) else None.

Fixpoint digits (s : string) (acc : Z) : option Z :=
  match s with
  | EmptyString => Some acc
  | String a s' => d ← digit a; digits s' (10 * acc + d)%Z
  end.

Definition natural (s : string) : option Z :=
  if decide (s = "") then None else digits s 0.

Definition unsigned_decimal (s : string) : option Qc :=
  match split "." s with
  | [i] => n ← natural i; Some (Q2Qc (inject_Z n))
  | [i; f] =>
      n ← natural i; m ← natural f;
      Some (Q2Qc (inject_Z n + inject_Z m / inject_Z (10 ^ Z.of_nat (String.length f))))
  | _ => None
  end.

Definition decimal (s : string) : option Qc :=
  match s with
  | String "-" s' => Qcopp <$> unsigned_decimal s'
  | _ => unsigned_decimal s
  end.

(** Days from 1970-01-01 to the given day of the proleptic Gregorian
    calendar. *)
Definition days_from_civil (y m d : Z) : Z :=
  let y := if bool_decide (m ≤ 2)%Z then (y - 1)%Z else y in
  let era := (y / 400)%Z in
  let yoe := (y - era * 400)%Z in
  let mp := (if bool_decide (m ≤ 2)%Z then m + 9 else m - 3)%Z in
  let doy := ((153 * mp + 2) / 5 + d - 1)%Z in
  let doe := (yoe * 365 + yoe / 4 - yoe / 100 + doy)%Z in
  (era * 146097 + doe - 719468)%Z.

Definition iso_instant (s : string) : option Z :=
  let sub := λ i n, natural (String.substring i n s) in
  let sep := λ i, String.substring i 1 s in
  let tail := String.substring 19 (String.length s - 19) s in
  y ← sub 0%nat 4%nat; mo ← sub 5%nat 2%nat; d ← sub 8%nat 2%nat;
  h ← sub 11%nat 2%nat; mi ← sub 14%nat 2%nat; sec ← sub 17%nat 2%nat;
  if bool_decide (sep 4%nat = "-" ∧ sep 7%nat = "-"
                  ∧ (sep 10%nat = " " ∨ sep 10%nat = "T")
                  ∧ sep 13%nat = ":" ∧ sep 16%nat = ":"
                  ∧ (tail = "" ∨ tail = "Z" ∨ tail = "+00:00")
                  ∧ (1 ≤ mo ≤ 12 ∧ 1 ≤ d ≤ 31 ∧ h < 24 ∧ mi < 60 ∧ sec < 60)%Z)
  then Some ((((days_from_civil y mo d * 24 + h) * 60 + mi) * 60 + sec) * 1000000000)%Z
  else None.

Definition cell_of_field (field : string) : option pd.Cell :=
  if decide (field = "") then None
  else match decimal field with
       | Some q => Some (pd.Number q)
       | None => Some (pd.Text field)
       end.

Fixpoint row_of_fields (cols : list string) (fields : list string) : Exc (gmap string pd.Cell) :=
  match cols, fields with
  | _, [] => mret ∅
  | [], _ :: _ => Raise ParserError
  | c :: cols', f :: fields' =>
      r ← row_of_fields cols' fields';
      mret (pd.assign c (cell_of_field f) r)
  end.

Definition read_csv (text : string) : Exc pd.DataFrame :=
  match filter (λ line, line ≠ "") (split "010" text) with
  | [] => Raise ParserError
  | header :: records =>
      let cols := split "," header in
      rs ← mapM (λ line, row_of_fields cols (split "," line)) records;
      mret {| pd.columns := cols; pd.rows := rs |}
  end.

Definition to_datetime_cell (v : option pd.Cell) : Exc (option pd.Cell) :=
  match v with
  | None => mret None
  | Some (pd.Timestamp t) => mret (Some (pd.Timestamp t))
  | Some (pd.Number q) => mret (Some (pd.Timestamp (Qfloor q)))
  | Some (pd.Text s) =>
      match iso_instant s with
      | Some t => mret (Some (pd.Timestamp t))
      | None => Raise ValueError
      end
  end.

Definition str (v : option pd.Cell) : string :=
  match v with
  | None => "NaT"
  | Some (pd.Timestamp t) => pretty t
  | Some (pd.Number q) => pretty (Qnum q) +:+ "/" +:+ pretty (Z.pos (Qden q))
  | Some (pd.Text s) => s
  end.

Definition float_of_str (s : string) : Exc Qc :=
  match decimal s with
  | Some q => mret q
  | None => Raise ValueError
  end.

Definition compare_with_cutoff (col : list (option pd.Cell)) : Exc unit :=
  if forallb (λ v, match v with Some (pd.Number _) | Some (pd.Text _) => false | _ => true end) col
  then mret () else Raise TypeError.

#[global] Instance library : Library :=
  Build_Library read_csv (mapM to_datetime_cell) str float_of_str compare_with_cutoff.

End simple.

(** ** Predicates of the statements *)

(** The bounds do not give interval metrics against [actuals]: one is
    missing or empty, or its length is not that of [actuals]. *)
Definition bounds_unusable (lower upper : option (list Q)) (actuals : list Q) : Prop :=
  match lower, upper with
  | Some l, Some u =>
      l = [] ∨ u = [] ∨ length l ≠ length actuals ∨ length u ≠ length actuals
  | _, _ => True
  end.

(** A value that no division by zero has gone into. *)
Definition well_defined (v : MetricsCalculator.value) : Prop :=
  match v with
  | MetricsCalculator.Int _ => True
  | MetricsCalculator.Float x | MetricsCalculator.Sqrt x => ∃ q, x = np.Finite q
  end.

(** The cell is an instant or NaT. *)
Definition datetime_cell (v : option pd.Cell) : Prop :=
  v = None ∨ ∃ t, v = Some (pd.Timestamp t).

(** Column [c] of the table holds instants and NaT only, as a column
    that parse_csv has converted with [pd.to_datetime] does. *)
Definition datetime_column (c : string) (df : pd.DataFrame) : Prop :=
  Forall (λ r, datetime_cell (r !! c)) (pd.rows df).

(** The row at position [i] after a second merge of the rows [d] on
    column [c], where [g] is what the statistics pass wrote into the
    rows of the first merge: a row whose key is in [d] is again the row
    of [d], another one keeps what was written. *)
Definition kept (c : string) (d : list (gmap string pd.Cell))
    (g : nat → gmap string pd.Cell → gmap string pd.Cell)
    (i : nat) (r : gmap string pd.Cell) : gmap string pd.Cell :=
  if decide (r !! c ∈ (λ r' : gmap string pd.Cell, r' !! c) <$> d) then r else g i r.

(** The stored table as [DataManager._update_stats] leaves it: with the
    column pred_time written, unless the table is empty, has no key
    column, or a conversion raised. *)
Definition stats_frame `{!Library} (df : pd.DataFrame) : pd.DataFrame :=
  if pd.empty df then df
  else if decide (DataManager.timestamp_col df ∈ pd.columns df) then
    match compare_with_cutoff (pd.column (DataManager.timestamp_col df) df),
          to_datetime (pd.column (DataManager.timestamp_col df) df) with
    | Return _, Return pred_time => pd.setitem df "pred_time" pred_time
    | _, _ => df
    end
  else df.

(** The table [DataManager.update_miner_data] stores for a source that
    has the table [existing], before the statistics pass. *)
Definition merged (existing df : pd.DataFrame) : pd.DataFrame :=
  let combined := pd.concat existing df in
  if decide (DataManager.timestamp_col combined ∈ pd.columns combined)
  then pd.sort_values (DataManager.timestamp_col combined) false
         (pd.drop_duplicates (DataManager.timestamp_col combined) combined)
  else combined.

(** The tolerance of the price lookup, in nanoseconds. *)
Definition tolerance : Z := 300 * PriceCSVLoader.second_ns.

(** What the scan of [PriceCSVLoader.closest] knows after the keys
    [seen]: no key within the tolerance so far, or the first of the
    nearest keys within it. *)
Definition scanned (bucket : Z) (seen : list (option Z)) (st : option Z * option Z) : Prop :=
  match st.1 with
  | None => st.2 = None ∧ ∀ k, Some k ∈ seen → (tolerance < Z.abs (k - bucket))%Z
  | Some c =>
      st.2 = Some (Z.abs (c - bucket)) ∧ Some c ∈ seen
      ∧ (Z.abs (c - bucket) ≤ tolerance)%Z
      ∧ ∀ k, Some k ∈ seen → (Z.abs (c - bucket) ≤ Z.abs (k - bucket))%Z
  end.

(** ** Sample inputs *)

Module sample.
Import PriceCSVLoader.

(** A disk with one price file, of one record at 00:10:00. *)
Definition disk_btc : Disk := {|
  exists_ := λ p, bool_decide (p = "../precog_lstm/data/real_price/btc_7d.csv");
  st_mtime := λ _, Return 1%Q;
  read_text := λ _, Return "timestamp,close
2024-01-01 00:10:00,42000
";
|}.

(** A disk without any file. *)
Definition no_files : Disk := {|
  exists_ := λ _, false;
  st_mtime := λ _, Raise OSError;
  read_text := λ _, Raise OSError;
|}.

(** The class attributes before any load. *)
Definition fresh : t := {|
  _price_cache := ∅;
  _price_lookup_cache := ∅;
  _file_mtime_cache := ∅;
|}.

(** 2024-01-01 00:07:30 UTC; its bucket is 00:05:00. *)
Definition half_past_seven : Z := 1704067650000000000.

(** Class attributes holding a table for btc and a lookup whose only
    key lies 301 seconds after the bucket 00:05:00. *)
Definition cached_301 : t := {|
  _price_cache :=
    {[ "btc" := {| pd.columns := ["timestamp"; "close"];
                   pd.rows := [ {[ "close" := pd.Number (Q2Qc 42000) ]} ] |} ]};
  _price_lookup_cache := {[ "btc" := [(Some 1704067801000000000%Z, Some (Q2Qc 42000))] ]};
  _file_mtime_cache := {[ "btc" := 1%Q ]};
|}.

(** A table of three rows, two of them at the same instant, in the
    order of the log file (oldest first). *)
Definition delta : pd.DataFrame := {|
  pd.columns := ["timestamp"; "btc_prediction"];
  pd.rows :=
    [ {[ "timestamp" := pd.Timestamp 1; "btc_prediction" := pd.Number (Q2Qc 1) ]};
      {[ "timestamp" := pd.Timestamp 2; "btc_prediction" := pd.Number (Q2Qc 2) ]};
      {[ "timestamp" := pd.Timestamp 2; "btc_prediction" := pd.Number (Q2Qc 3) ]} ];
|}.

(** A table without timestamp and datetime column. *)
Definition unkeyed : pd.DataFrame := {|
  pd.columns := ["btc_prediction"];
  pd.rows := [ {[ "btc_prediction" := pd.Number (Q2Qc 1) ]} ];
|}.

(** A store that holds nothing, and a store that holds a table for
    the source [miner]. *)
Definition no_data : DataManager.t := {| DataManager.miner_data := ∅ |}.

Definition holds (df : pd.DataFrame) : DataManager.t :=
  {| DataManager.miner_data := {[ "miner" := df ]} |}.

(** Two rows of the same instant: the first has no prediction, the
    second has one. *)
Definition first_seen : gmap string pd.Cell := {[ "timestamp" := pd.Timestamp 1 ]}.

Definition second_seen : gmap string pd.Cell :=
  {[ "timestamp" := pd.Timestamp 1; "btc_prediction" := pd.Number (Q2Qc 5) ]}.

Definition concurrent : pd.DataFrame := {|
  pd.columns := ["timestamp"; "btc_prediction"];
  pd.rows := [first_seen; second_seen];
|}.

End sample.

(** * Properties *)

(** ** Metrics engine *)

Section metrics_facts.
Import MetricsCalculator.

(** What [calculate_prediction_metrics] computes: nothing on an empty
    input, else [compute_metrics] on both lists cut to the shorter
    length. *)
Lemma calculate_prediction_metrics_unfold predictions actuals lower upper :
  let n := Nat.min (length predictions) (length actuals) in
  calculate_prediction_metrics predictions actuals lower upper =
  if bool_decide (predictions = []) || bool_decide (actuals = []) then []
  else compute_metrics (take n predictions) (take n actuals) lower upper.
Proof.
  simpl. unfold calculate_prediction_metrics.
  destruct predictions as [|p ps]; [done|].
  destruct actuals as [|a acts]; [done|].
  rewrite !bool_decide_eq_false_2 by done. cbn [orb].
  case_bool_decide as Hne.
  - rewrite bool_decide_eq_false_2; [done|].
    rewrite length_take. simpl. lia.
  - rewrite bool_decide_eq_false_2 by done.
    rewrite <- Hne, Nat.min_id, firstn_all, Hne, firstn_all. done.
Qed.
End metrics_facts.

Section numpy_facts.
Import np.

Lemma array_sub (a b : list Q) :
  zip_with sub (array a) (array b) = array (zip_with Qminus a b).
Proof. revert b. induction a as [|x a IH]; intros [|y b]; simpl; f_equal; auto. Qed.

Lemma array_abs (a : list Q) : abs <$> array a = array (Qabs <$> a).
Proof. unfold array. rewrite <- !list_fmap_compose. done. Qed.

Lemma array_fmap_mul (f : Q → Q) (g : float64 → float64) (a : list Q) :
  (∀ q, g (Finite q) = Finite (f q)) → g <$> array a = array (f <$> a).
Proof.
  intros Hg. unfold array. rewrite <- !list_fmap_compose.
  apply list_fmap_ext. intros i x _. simpl. apply Hg.
Qed.

Lemma array_div (a b : list Q) :
  Forall (λ q, ¬ q == 0) b →
  zip_with div (array a) (array b) = array (zip_with Qdiv a b).
Proof.
  intros Hb. revert a. induction Hb as [|y b Hy Hb IH]; intros [|x a]; simpl; try done.
  f_equal; [|apply IH].
  destruct (Qeq_bool y 0) eqn:E; [|done].
  apply Qeq_bool_iff in E. contradiction.
Qed.

Lemma foldl_add_array (q : Q) (a : list Q) :
  ∃ q', foldl add (Finite q) (array a) = Finite q'.
Proof. revert q. induction a as [|x a IH]; intros q; simpl; eauto. Qed.

Lemma len_ne0 {A} (a : list A) : a ≠ [] → Qeq_bool (inject_Z (Z.of_nat (length a))) 0 = false.
Proof. destruct a; [done|]. intros _. reflexivity. Qed.

(** The mean of a non-empty array of finite values is finite: its
    divisor is the length. *)
Lemma mean_array (a : list Q) : a ≠ [] → ∃ q, mean (array a) = Finite q.
Proof.
  intros Ha. unfold mean, sum, len.
  destruct (foldl_add_array 0 a) as [s ->]. simpl.
  unfold array. rewrite length_fmap, len_ne0 by done. eauto.
Qed.

Lemma foldl_add_NonFinite (l : list float64) : foldl add NonFinite l = NonFinite.
Proof. induction l as [|x l IH]; simpl; [done|]. exact IH. Qed.

Lemma sum_NonFinite (x : float64) (l : list float64) :
  NonFinite ∈ l → foldl add x l = NonFinite.
Proof.
  intros Hin. revert x. induction l as [|y l IH]; intros x; [by apply elem_of_nil in Hin|].
  apply elem_of_cons in Hin as [<-|Hin]; simpl.
  - destruct x; apply foldl_add_NonFinite.
  - by apply IH.
Qed.

Lemma mean_NonFinite (l : list float64) : NonFinite ∈ l → mean l = NonFinite.
Proof. intros Hin. unfold mean, sum. by rewrite sum_NonFinite. Qed.

(** A zero among the divisors leaves a non-finite quotient. *)
Lemma div_by_zero_elem (xs : list float64) (b : list Q) :
  length xs = length b → (∃ q, q ∈ b ∧ q == 0) →
  NonFinite ∈ zip_with div xs (array b).
Proof.
  intros Hlen (q & Hq & Hz). revert xs Hlen.
  induction b as [|y b IH]; intros xs Hlen; [by apply elem_of_nil in Hq|].
  destruct xs as [|x xs]; [done|]. simpl.
  apply elem_of_cons in Hq as [<-|Hq].
  - replace (div x (Finite q)) with NonFinite; [apply list_elem_of_here|].
    destruct x; simpl; [|done].
    apply Qeq_bool_iff in Hz. by rewrite Hz.
  - apply list_elem_of_further, IH; [done|]. simpl in Hlen. lia.
Qed.

Lemma to_float_finite x : (∃ q, x = Finite q) → ∃ q, to_float x = Finite q.
Proof. intros [q ->]. simpl. eauto. Qed.

(** A guarded percentage, [(x / m) * 100 if m != 0 else 0], is finite
    for finite [x] and [m]. *)
Lemma guarded_pct_finite (x m : Q) :
  ∃ q, (if ne0 (Finite m) then mul (div (Finite x) (Finite m)) (Finite 100) else Finite 0)
       = Finite q.
Proof.
  simpl. destruct (Qeq_bool m 0) eqn:E; simpl; eauto.
Qed.
End numpy_facts.

Section metrics_claims.
Import MetricsCalculator.
Local Open Scope Q_scope.

(** C6 (as the specification words it, refuted): on predictions
    [100, 100] and actuals [110, 90] the mean absolute percentage
    error is not 10. *)
Lemma worked_example_mape_is_not_10 :
  ¬ ∃ q, dict_get (calculate_prediction_metrics [100; 100] [110; 90] None None) "mape"
           = Some (Float (np.Finite q))
         ∧ q == 10.
Proof. intros (q & Hq & H10). vm_compute in Hq. injection Hq as <-. discriminate H10. Qed.

(** C6 (amended): on predictions [100, 100] and actuals [110, 90] the
    metrics are MAE = 10, bias = 0 and MAPE = 1000/99 (10.10...%, the
    mean of 10/110 and 10/90 in percent); with the bounds [90, 80] and
    [110, 100] the coverage is 100. *)
Theorem worked_example :
  let m := calculate_prediction_metrics [100; 100] [110; 90] None None in
  let mi := calculate_prediction_metrics [100; 100] [110; 90]
              (Some [90; 80]) (Some [110; 100]) in
  dict_get m "mae" = Some (Float (np.Finite 10))
  ∧ dict_get m "bias" = Some (Float (np.Finite 0))
  ∧ dict_get m "mape" = Some (Float (np.Finite (1000 # 99)))
  ∧ dict_get mi "mae" = Some (Float (np.Finite 10))
  ∧ dict_get mi "bias" = Some (Float (np.Finite 0))
  ∧ dict_get mi "mape" = Some (Float (np.Finite (1000 # 99)))
  ∧ dict_get mi "coverage" = Some (Float (np.Finite 100)).
Proof. vm_compute. repeat split; reflexivity. Qed.

Lemma compute_metrics_no_interval predictions actuals lower upper key :
  bounds_unusable lower upper actuals →
  key ∈ ["coverage"; "avg_interval_width"; "avg_interval_width_pct"] →
  dict_get (compute_metrics predictions actuals lower upper) key = None.
Proof.
  intros Hb Hkey. unfold compute_metrics.
  assert (Hcond : truthy lower && truthy upper
                  && (bool_decide (length (default [] lower) = length actuals)
                      && bool_decide (length (default [] upper) = length actuals)) = false).
  { destruct lower as [[|l ls]|], upper as [[|u us]|]; simpl in *; try done.
    destruct Hb as [?|[?|[Hl|Hu]]]; try done.
    - rewrite (bool_decide_eq_false_2 _ Hl). done.
    - rewrite (bool_decide_eq_false_2 _ Hu). by rewrite andb_false_r. }
  destruct (truthy lower && truthy upper); simpl in Hcond.
  - rewrite Hcond.
    repeat (apply elem_of_cons in Hkey as [->|Hkey]; [reflexivity|]).
    by apply elem_of_nil in Hkey.
  - repeat (apply elem_of_cons in Hkey as [->|Hkey]; [reflexivity|]).
    by apply elem_of_nil in Hkey.
Qed.

(** C7: lists of different lengths are handled as if both had been
    cut to the shorter length, so [1,2,3] against [1,2] gives what
    [1,2] against [1,2] gives; an empty list gives the empty dict; and
    the interval keys are absent from the result when a bound is
    missing or empty or when the length of a bound differs from that
    of the actuals that are evaluated. *)
Theorem metrics_input_handling (predictions actuals : list Q) (lower upper : option (list Q)) :
  let n := Nat.min (length predictions) (length actuals) in
  calculate_prediction_metrics predictions actuals lower upper
    = calculate_prediction_metrics (take n predictions) (take n actuals) lower upper
  ∧ calculate_prediction_metrics [1; 2; 3] [1; 2] lower upper
    = calculate_prediction_metrics [1; 2] [1; 2] lower upper
  ∧ (predictions = [] ∨ actuals = [] →
     calculate_prediction_metrics predictions actuals lower upper = [])
  ∧ (bounds_unusable lower upper (take n actuals) →
     ∀ key, key ∈ ["coverage"; "avg_interval_width"; "avg_interval_width_pct"] →
       dict_get (calculate_prediction_metrics predictions actuals lower upper) key = None).
Proof.
  simpl. split; [|split; [|split]].
  - rewrite (calculate_prediction_metrics_unfold (take _ _)).
    rewrite calculate_prediction_metrics_unfold. simpl.
    destruct predictions as [|p ps]; [done|].
    destruct actuals as [|a acts]; [done|].
    rewrite !length_take.
    replace (Nat.min (Nat.min _ _) (Nat.min _ _))
      with (Nat.min (length (p :: ps)) (length (a :: acts))) by lia.
    by rewrite !take_idemp.
  - rewrite !calculate_prediction_metrics_unfold. reflexivity.
  - intros [-> | ->]; [done|]. by destruct predictions.
  - intros Hb key Hkey. rewrite calculate_prediction_metrics_unfold. simpl.
    destruct (_ || _); [done|].
    by apply compute_metrics_no_interval.
Qed.

(** A run of C7: three predictions against two actuals, with bounds of
    the wrong length. *)
Lemma metrics_input_handling_witness :
  let r := calculate_prediction_metrics [1; 2; 3] [1; 2] (Some [0]) (Some [5]) in
  r = calculate_prediction_metrics [1; 2] [1; 2] (Some [0]) (Some [5])
  ∧ calculate_prediction_metrics [] [1; 2] (Some [0]) (Some [5]) = []
  ∧ dict_get r "coverage" = None.
Proof.
  destruct (metrics_input_handling [1; 2; 3] [1; 2] (Some [0]) (Some [5]))
    as (_ & H1 & _ & H3).
  destruct (metrics_input_handling [] [1; 2] (Some [0]) (Some [5]))
    as (_ & _ & H2 & _).
  split; [exact H1|]. split; [apply H2; by left|].
  apply H3.
  - simpl. right. right. left. discriminate.
  - apply list_elem_of_here.
Defined.
End metrics_claims.

Section zero_actuals.
Import MetricsCalculator.
Local Open Scope Q_scope.

Lemma zip_with_nonempty {A B C} (f : A → B → C) (a : list A) (b : list B) :
  a ≠ [] → length b = length a → zip_with f a b ≠ [].
Proof. destruct a, b; done. Qed.

Lemma fmap_nonempty {A B} (f : A → B) (a : list A) : a ≠ [] → f <$> a ≠ [].
Proof. by destruct a. Qed.

Lemma len_array_ne0 (a : list Q) :
  a ≠ [] → Qeq_bool (inject_Z (Z.of_nat (length (np.array a)))) 0 = false.
Proof. intros Ha. unfold np.array. rewrite length_fmap. by apply len_ne0. Qed.

Lemma mean_array_to_float (a : list Q) :
  a ≠ [] → ∃ q, np.to_float (np.mean (np.array a)) = np.Finite q.
Proof. intros Ha. apply to_float_finite, mean_array, Ha. Qed.

Lemma guarded_pct_to_float (x m : np.float64) :
  (∃ q, x = np.Finite q) → (∃ q, m = np.Finite q) →
  ∃ q, np.to_float (if np.ne0 m then np.mul (np.div x m) (np.Finite 100) else np.Finite 0)
       = np.Finite q.
Proof. intros [q ->] [q' ->]. apply to_float_finite, guarded_pct_finite. Qed.

(** With no zero among the actuals every value of the result is
    finite: each division has a non-zero divisor. *)
Lemma compute_metrics_well_defined predictions actuals lower upper :
  actuals ≠ [] → length predictions = length actuals →
  Forall (λ a, ¬ a == 0) actuals →
  Forall (λ kv, well_defined kv.2) (compute_metrics predictions actuals lower upper).
Proof.
  intros Ha Hlen Hnz. unfold compute_metrics.
  rewrite array_sub, array_abs, array_div by done.
  rewrite (array_fmap_mul (λ q, q * 100)) by done.
  rewrite (array_fmap_mul (λ q, q * q)) by done.
  set (errors := zip_with Qminus actuals predictions).
  assert (He : errors ≠ []) by (by apply zip_with_nonempty).
  assert (Hbase : Forall (λ kv : string * value, well_defined kv.2)
    [("n_predictions", Int (Z.of_nat (length predictions)));
     ("mape", Float (np.to_float (np.mean (np.array
        ((λ q, q * 100) <$> zip_with Qdiv (Qabs <$> errors) actuals)))));
     ("mae", Float (np.to_float (np.mean (np.array (Qabs <$> errors)))));
     ("rmse", Sqrt (np.to_float (np.mean (np.array ((λ q, q * q) <$> errors)))));
     ("bias", Float (np.to_float (np.mean (np.array errors))));
     ("bias_pct", Float (np.to_float
        (if np.ne0 (np.mean (np.array actuals))
         then np.mul (np.div (np.mean (np.array errors)) (np.mean (np.array actuals)))
                (np.Finite 100)
         else np.Finite 0)))]).
  { repeat apply Forall_cons_2; simpl; try done.
    - apply mean_array_to_float, fmap_nonempty, zip_with_nonempty.
      + by apply fmap_nonempty.
      + rewrite length_fmap. unfold errors. rewrite length_zip_with. lia.
    - by apply mean_array_to_float, fmap_nonempty.
    - by apply mean_array_to_float, fmap_nonempty.
    - by apply mean_array_to_float.
    - apply guarded_pct_to_float; by apply mean_array. }
  destruct (truthy lower && truthy upper); [|exact Hbase].
  case_bool_decide as Hl; [|exact Hbase].
  case_bool_decide as Hu; [|exact Hbase]. cbn [andb].
  rewrite array_sub.
  repeat (apply Forall_cons in Hbase as [? Hbase]). simpl in *.
  repeat apply Forall_cons_2; simpl; try done.
  - rewrite len_array_ne0 by done. simpl. eauto.
  - apply mean_array_to_float, zip_with_nonempty.
    + intros Hup. rewrite Hup in Hu. by destruct actuals.
    + congruence.
  - apply guarded_pct_to_float; [|by apply mean_array].
    apply mean_array, zip_with_nonempty.
    + intros Hup. rewrite Hup in Hu. by destruct actuals.
    + congruence.
Qed.
End zero_actuals.

Section zero_actuals_claim.
Import MetricsCalculator.
Local Open Scope Q_scope.

Lemma dict_get_elem_of {K V} `{EqDecision K} (d : dict K V) (k : K) (v : V) :
  dict_get d k = Some v → (k, v) ∈ d.
Proof.
  induction d as [|[k' v'] d IH]; simpl; [done|].
  case_decide as Hk.
  - intros [= <-]. subst. apply list_elem_of_here.
  - intros Hd. by apply list_elem_of_further, IH.
Qed.

Lemma compute_metrics_mape predictions actuals lower upper :
  dict_get (compute_metrics predictions actuals lower upper) "mape" =
  Some (Float (np.to_float (np.mean ((λ x, np.mul x (np.Finite 100)) <$>
    zip_with np.div (np.abs <$> zip_with np.sub (np.array actuals) (np.array predictions))
      (np.array actuals))))).
Proof.
  unfold compute_metrics.
  destruct (truthy lower && truthy upper); [|reflexivity].
  destruct (_ && _); reflexivity.
Qed.

Lemma compute_metrics_guard predictions actuals lower upper :
  np.ne0 (np.mean (np.array actuals)) = false →
  dict_get (compute_metrics predictions actuals lower upper) "bias_pct"
    = Some (Float (np.Finite 0))
  ∧ ∀ v, dict_get (compute_metrics predictions actuals lower upper) "avg_interval_width_pct"
           = Some v → v = Float (np.Finite 0).
Proof.
  intros Hz. unfold compute_metrics. rewrite Hz.
  destruct (truthy lower && truthy upper); [|by split].
  destruct (_ && _); split; try done.
  simpl. by intros v [= <-].
Qed.

(** C10: the percentages of the bias and of the interval width are
    guarded (they are 0 when the mean of the actuals is zero), the
    term of the MAPE is not.  When no actual that is evaluated is zero
    no value of the result comes from a division by zero; and this is
    needed: with a zero among them the MAPE is not a finite number. *)
Theorem zero_actual_guard (predictions actuals : list Q) (lower upper : option (list Q)) :
  let n := Nat.min (length predictions) (length actuals) in
  let acts := take n actuals in
  let m := calculate_prediction_metrics predictions actuals lower upper in
  (predictions ≠ [] → actuals ≠ [] →
   (∃ q, np.mean (np.array acts) = np.Finite q ∧ q == 0) →
     dict_get m "bias_pct" = Some (Float (np.Finite 0))
     ∧ ∀ v, dict_get m "avg_interval_width_pct" = Some v → v = Float (np.Finite 0))
  ∧ ((∀ a, a ∈ acts → ¬ a == 0) →
     ∀ key v, dict_get m key = Some v → well_defined v)
  ∧ (predictions ≠ [] → actuals ≠ [] → (∃ a, a ∈ acts ∧ a == 0) →
     dict_get m "mape" = Some (Float np.NonFinite)).
Proof.
  simpl. rewrite calculate_prediction_metrics_unfold. simpl.
  set (n := Nat.min _ _).
  split; [|split].
  - intros Hp Ha (q & Hmean & Hq).
    rewrite !bool_decide_eq_false_2 by done. simpl.
    apply compute_metrics_guard. rewrite Hmean. simpl.
    apply Qeq_bool_iff in Hq. by rewrite Hq.
  - intros Hnz key v Hget.
    destruct predictions as [|p ps]; [done|].
    destruct actuals as [|a acts]; [done|].
    rewrite !bool_decide_eq_false_2 in Hget by done. cbn [orb] in Hget.
    apply dict_get_elem_of in Hget.
    assert (HF : Forall (λ kv : string * value, well_defined kv.2)
              (compute_metrics (take n (p :: ps)) (take n (a :: acts)) lower upper)).
    { apply compute_metrics_well_defined.
      - done.
      - rewrite !length_take. unfold n. lia.
      - by apply Forall_forall. }
    rewrite Forall_forall in HF. apply (HF _ Hget).
  - intros Hp Ha Hzero.
    rewrite !bool_decide_eq_false_2 by done. simpl.
    rewrite compute_metrics_mape. do 2 f_equal.
    rewrite mean_NonFinite; [done|].
    apply (list_elem_of_fmap_2' _ _ np.NonFinite); [|done].
    apply div_by_zero_elem; [|done].
    rewrite length_fmap, length_zip_with. unfold np.array.
    rewrite !length_fmap, !length_take. unfold n. lia.
Qed.

(** A run of C10: actuals [4, 0] with mean 2, and actuals [2, -2]
    with mean 0. *)
Lemma zero_actual_guard_witness :
  dict_get (calculate_prediction_metrics [1; 1] [4; 0] None None) "mape"
    = Some (Float np.NonFinite)
  ∧ dict_get (calculate_prediction_metrics [1; 1] [2; -2] None None) "bias_pct"
    = Some (Float (np.Finite 0))
  ∧ ∀ key v, dict_get (calculate_prediction_metrics [1; 1] [4; 2] None None) key = Some v →
      well_defined v.
Proof.
  destruct (zero_actual_guard [1; 1] [4; 0] None None) as (_ & _ & H3).
  destruct (zero_actual_guard [1; 1] [2; -2] None None) as (H1 & _ & _).
  destruct (zero_actual_guard [1; 1] [4; 2] None None) as (_ & H2 & _).
  split; [|split].
  - apply H3; [done|done|]. exists 0. split; [|reflexivity].
    apply list_elem_of_further, list_elem_of_here.
  - apply H1; [done|done|]. exists (0 # 2). split; reflexivity.
  - apply H2. intros a Ha Hz. simpl in Ha.
    repeat (apply elem_of_cons in Ha as [->|Ha]; [discriminate Hz|]).
    by apply elem_of_nil in Ha.
Defined.
End zero_actuals_claim.

(** ** Row codec *)

Section py_facts.

Lemma lstrip_whitespace (s : string) :
  Forall (λ a, py.isspace a) (list_ascii_of_string s) → py.lstrip s = "".
Proof.
  induction s as [|a s IH]; cbn [py.lstrip list_ascii_of_string]; [done|].
  intros Hs. apply Forall_cons in Hs as [Ha Hs].
  destruct (py.isspace a).
  - apply IH, Hs.
  - contradiction.
Qed.

Lemma strip_whitespace (s : string) :
  Forall (λ a, py.isspace a) (list_ascii_of_string s) → py.strip s = "".
Proof. intros Hs. unfold py.strip. rewrite (lstrip_whitespace s) by done. reflexivity. Qed.

End py_facts.

Section csv_parser_claims.
Context `{!Library}.

(** C8 (amended): for every text [parse_csv] returns a table and never
    raises; an empty or all-whitespace text gives the empty table; and
    a record that cannot be parsed is not dropped on its own: when
    reading the text raises, or converting its timestamp column
    raises, the whole result is the empty table. *)
Theorem parse_csv_total (csv_content : string) :
  ∃ df, CSVParser.parse_csv csv_content = Return df
    ∧ (Forall (λ a, py.isspace a) (list_ascii_of_string csv_content) → df = pd.DataFrame_)
    ∧ ((∃ e, read_csv csv_content = Raise e) → df = pd.DataFrame_)
    ∧ (∀ df0 e, read_csv csv_content = Return df0 →
         "timestamp" ∈ pd.columns df0 →
         to_datetime (pd.column "timestamp" df0) = Raise e → df = pd.DataFrame_).
Proof.
  unfold CSVParser.parse_csv.
  destruct (bool_decide (csv_content = "") || bool_decide (py.strip csv_content = ""))
    eqn:Hblank.
  { exists pd.DataFrame_. by repeat split. }
  assert (Hns : ¬ Forall (λ a, py.isspace a) (list_ascii_of_string csv_content)).
  { intros Hs. apply strip_whitespace in Hs.
    rewrite (bool_decide_eq_true_2 (py.strip _ = _)) in Hblank by done.
    by rewrite orb_true_r in Hblank. }
  destruct (read_csv csv_content) as [df0|e0] eqn:Hread; simpl.
  - unfold CSVParser.convert.
    destruct (decide ("timestamp" ∈ pd.columns df0)) as [Hts|Hts].
    + destruct (to_datetime (pd.column "timestamp" df0)) as [vals|e1] eqn:Hconv; simpl.
      * match goal with |- context [try_except ?b ?h] => destruct b as [df1|e2] end; simpl.
        -- exists df1. split; [done|]. split; [done|]. split; [by intros [? ?]|].
           intros ? ? [= <-] _ ?. congruence.
        -- exists pd.DataFrame_. by repeat split.
      * exists pd.DataFrame_. by repeat split.
    + simpl.
      match goal with |- context [try_except ?b ?h] => destruct b as [df1|e2] end; simpl.
      * exists df1. split; [done|]. split; [done|]. split; [by intros [? ?]|].
        intros ? ? [= <-] ? ?. done.
      * exists pd.DataFrame_. by repeat split.
  - exists pd.DataFrame_. by repeat split.
Qed.

End csv_parser_claims.

(** C8, a run: whitespace and a text with a record of too many fields,
    read with the small library instance. *)
Lemma parse_csv_total_witness :
  CSVParser.parse_csv (String "010" "  ") = Return pd.DataFrame_
  ∧ CSVParser.parse_csv "a,b
1,2
3,4,5
" = Return pd.DataFrame_.
Proof.
  split.
  - destruct (parse_csv_total (String "010" "  ")) as (df & -> & Hws & _).
    f_equal. apply Hws. vm_compute. repeat constructor.
  - destruct (parse_csv_total "a,b
1,2
3,4,5
") as (df & -> & _ & Hraise & _).
    f_equal. apply Hraise. exists ParserError. reflexivity.
Defined.

(** C8 (as the specification words it, refuted): one malformed record
    loses the whole result.  The second record of the first text has too
    many fields, the second record of the second text has no date; in
    both the first record is well formed, and alone it is decoded. *)
Lemma malformed_record_loses_all :
  CSVParser.parse_csv "a,b
1,2
3,4,5
" = Return pd.DataFrame_
  ∧ CSVParser.parse_csv "timestamp,btc_prediction
2024-01-01 00:00:00+00:00,100.5
not-a-date,101
" = Return pd.DataFrame_
  ∧ (∃ r, CSVParser.parse_csv "a,b
1,2
" = Return {| pd.columns := ["a"; "b"]; pd.rows := [r] |})
  ∧ (∃ r, CSVParser.parse_csv "timestamp,btc_prediction
2024-01-01 00:00:00+00:00,100.5
" = Return {| pd.columns := ["timestamp"; "btc_prediction"]; pd.rows := [r] |}).
Proof.
  split; [by vm_compute|]. split; [by vm_compute|].
  split; eexists; vm_compute; reflexivity.
Qed.

(** ** Ingestion: the delta between two snapshots *)

Section get_new_rows_claims.
Context `{!Library}.

Lemma filter_all {A} (P : A → Prop) `{!∀ x, Decision (P x)} (l : list A) :
  (∀ x, x ∈ l → P x) → filter P l = l.
Proof.
  induction l as [|x l IH]; intros HP; [done|].
  rewrite filter_cons_True by (apply HP, list_elem_of_here).
  f_equal. apply IH. intros y Hy. by apply HP, list_elem_of_further.
Qed.

Lemma filter_none {A} (P : A → Prop) `{!∀ x, Decision (P x)} (l : list A) :
  (∀ x, x ∈ l → ¬ P x) → filter P l = [].
Proof.
  induction l as [|x l IH]; intros HP; [done|].
  rewrite filter_cons_False by (apply HP, list_elem_of_here).
  apply IH. intros y Hy. by apply HP, list_elem_of_further.
Qed.

Lemma filter_ext_elem {A} (P Q : A → Prop) `{!∀ x, Decision (P x)} `{!∀ x, Decision (Q x)}
    (l : list A) :
  (∀ x, x ∈ l → P x ↔ Q x) → filter P l = filter Q l.
Proof.
  induction l as [|x l IH]; intros HPQ; [done|].
  rewrite !filter_cons.
  assert (Hx : P x ↔ Q x) by apply HPQ, list_elem_of_here.
  assert (Hl : filter P l = filter Q l).
  { apply IH. intros y Hy. by apply HPQ, list_elem_of_further. }
  destruct (decide (P x)), (decide (Q x)); try tauto; by rewrite Hl.
Qed.

(** C3: when both snapshots have the key column, the delta is made of
    the rows of the new snapshot whose key, as a string, is not the
    key of a row of the prior one, in their order; and the delta
    against an empty prior snapshot is the new snapshot itself. *)
Theorem get_new_rows_set_difference (old_df new_df : pd.DataFrame) :
  let timestamp_col :=
    if decide ("timestamp" ∈ pd.columns new_df) then "timestamp" else "datetime" in
  (pd.empty old_df = true → CSVParser.get_new_rows old_df new_df = Return new_df)
  ∧ (timestamp_col ∈ pd.columns new_df → timestamp_col ∈ pd.columns old_df →
     ∃ delta, CSVParser.get_new_rows old_df new_df = Return delta
       ∧ pd.rows delta =
           filter (λ r, str (r !! timestamp_col) ∉ str <$> pd.column timestamp_col old_df)
             (pd.rows new_df)).
Proof.
  simpl. set (tc := if decide _ then _ else _).
  unfold CSVParser.get_new_rows. fold tc.
  split.
  { by intros ->. }
  intros Hnew Hold.
  destruct (pd.empty old_df) eqn:Heo.
  { exists new_df. split; [done|].
    symmetry. apply filter_all. intros r _.
    assert (Hrows : pd.rows old_df = []).
    { unfold pd.empty in Heo. apply orb_true_iff in Heo as [Hc|Hr].
      - apply bool_decide_eq_true in Hc. rewrite Hc in Hold. by apply elem_of_nil in Hold.
      - by apply bool_decide_eq_true in Hr. }
    unfold pd.column. rewrite Hrows. simpl. apply not_elem_of_nil. }
  destruct (pd.empty new_df) eqn:Hen.
  { exists pd.DataFrame_. split; [done|].
    unfold pd.empty in Hen. apply orb_true_iff in Hen as [Hc|Hr].
    - apply bool_decide_eq_true in Hc. rewrite Hc in Hnew. by apply elem_of_nil in Hnew.
    - apply bool_decide_eq_true in Hr. by rewrite Hr. }
  rewrite decide_False by (intros Hn; by apply Hn).
  unfold pd.getitem. rewrite !decide_True by done. simpl.
  case_decide as Hadded.
  - exists pd.DataFrame_. split; [done|]. simpl.
    symmetry. apply filter_none. intros r Hr Hnot.
    assert (Hin : str (r !! tc) ∈ (list_to_set (str <$> pd.column tc new_df) : gset string)
                                    ∖ list_to_set (str <$> pd.column tc old_df)).
    { apply elem_of_difference. split.
      - apply elem_of_list_to_set. apply list_elem_of_fmap_2.
        unfold pd.column. by apply (list_elem_of_fmap_2 (λ r, r !! tc)).
      - by rewrite elem_of_list_to_set. }
    rewrite Hadded in Hin. by apply not_elem_of_empty in Hin.
  - eexists. split; [done|]. simpl.
    apply filter_ext_elem. intros r Hr.
    rewrite elem_of_difference, !elem_of_list_to_set.
    split; [tauto|]. intros Hnot. split; [|done].
    apply list_elem_of_fmap_2. unfold pd.column.
    by apply (list_elem_of_fmap_2 (λ r, r !! tc)).
Qed.

End get_new_rows_claims.

(** C3, a run: the prior snapshot has the instants 1 and 2, the new one
    the instants 1, 2 and 3; the delta is the row of instant 3. *)
Lemma get_new_rows_set_difference_witness :
  let row t := ({[ "timestamp" := pd.Timestamp t ]} : gmap string pd.Cell) in
  let old_df := {| pd.columns := ["timestamp"]; pd.rows := [row 1; row 2] |} in
  let new_df := {| pd.columns := ["timestamp"]; pd.rows := [row 1; row 2; row 3] |} in
  CSVParser.get_new_rows pd.DataFrame_ new_df = Return new_df
  ∧ ∃ delta, CSVParser.get_new_rows old_df new_df = Return delta
      ∧ pd.rows delta = [row 3].
Proof.
  intros row old_df new_df.
  destruct (get_new_rows_set_difference pd.DataFrame_ new_df) as [H1 _].
  destruct (get_new_rows_set_difference old_df new_df) as [_ H2].
  split; [by apply H1|].
  destruct H2 as (delta & Hd & Hrows).
  - apply list_elem_of_here.
  - apply list_elem_of_here.
  - exists delta. split; [exact Hd|]. rewrite Hrows. by vm_compute.
Defined.

(** ** Price cache *)

Section dict_facts.
Context {K V : Type} `{EqDecision K}.

Lemma dict_get_set (d : dict K V) (k k' : K) (v : V) :
  dict_get (dict_set d k v) k' = if decide (k = k') then Some v else dict_get d k'.
Proof.
  induction d as [|[k0 v0] d IH]; simpl.
  - done.
  - destruct (decide (k0 = k)) as [->|Hk0]; simpl.
    + by destruct (decide (k = k')).
    + rewrite IH. destruct (decide (k0 = k')) as [->|?]; [|done].
      by rewrite decide_False.
Qed.

Lemma dict_get_foldl_set (f : K → V) (l : list K) (d : dict K V) (k : K) :
  dict_get (foldl (λ d t, dict_set d t (f t)) d l) k =
  if decide (k ∈ l) then Some (f k) else dict_get d k.
Proof.
  revert d. induction l as [|t l IH]; intros d; cbn [foldl].
  - case_decide as Hk; [by apply elem_of_nil in Hk|done].
  - rewrite IH, dict_get_set.
    destruct (decide (k ∈ l)) as [Hl|Hl].
    + by rewrite decide_True by by apply list_elem_of_further.
    + destruct (decide (t = k)) as [->|Htk].
      * by rewrite decide_True by apply list_elem_of_here.
      * rewrite decide_False; [done|].
        intros [->|?]%elem_of_cons; done.
Qed.

Lemma dict_get_is_Some (d : dict K V) (k : K) :
  k ∈ dict_keys d → is_Some (dict_get d k).
Proof.
  unfold dict_keys. induction d as [|[k0 v0] d IH]; simpl.
  - by intros ?%elem_of_nil.
  - intros Hk. destruct (decide (k0 = k)); [by eexists|].
    apply IH. apply elem_of_cons in Hk as [->|Hk]; done.
Qed.
End dict_facts.

Section closest_facts.
Import PriceCSVLoader.
Local Open Scope Z_scope.

Lemma closest_step_scanned bucket seen st key :
  scanned bucket seen st → scanned bucket (seen ++ [key]) (closest_step bucket st key).
Proof.
  destruct st as [c m]. unfold scanned, closest_step, tolerance. simpl.
  destruct key as [pt|]; simpl.
  - destruct c as [c|]; intros H.
    + destruct H as (-> & Hin & Htol & Hmin). simpl.
      case_bool_decide as Hlt; simpl.
      * case_bool_decide as Hle; simpl.
        -- split; [done|]. split; [set_solver|]. split; [done|].
           intros k [Hk|Hk]%elem_of_app.
           ++ specialize (Hmin k Hk). lia.
           ++ apply list_elem_of_singleton in Hk as [= ->]. lia.
        -- split; [done|]. split; [set_solver|]. split; [done|].
           intros k [Hk|Hk]%elem_of_app; [by apply Hmin|].
           apply list_elem_of_singleton in Hk as [= ->]. lia.
      * split; [done|]. split; [set_solver|]. split; [done|].
        intros k [Hk|Hk]%elem_of_app; [by apply Hmin|].
        apply list_elem_of_singleton in Hk as [= ->]. lia.
    + destruct H as (-> & Hfar). simpl.
      case_bool_decide as Hle; simpl.
      * split; [done|]. split; [set_solver|]. split; [done|].
        intros k [Hk|Hk]%elem_of_app.
        -- specialize (Hfar k Hk). lia.
        -- apply list_elem_of_singleton in Hk as [= ->]. lia.
      * split; [done|].
        intros k [Hk|Hk]%elem_of_app; [by apply Hfar|].
        apply list_elem_of_singleton in Hk as [= ->]. lia.
  - destruct c as [c|]; intros H.
    + destruct H as (-> & Hin & Htol & Hmin).
      split; [done|]. split; [set_solver|]. split; [done|].
      intros k [Hk|Hk]%elem_of_app; [by apply Hmin|].
      by apply list_elem_of_singleton in Hk.
    + destruct H as (-> & Hfar). split; [done|].
      intros k [Hk|Hk]%elem_of_app; [by apply Hfar|].
      by apply list_elem_of_singleton in Hk.
Qed.

Lemma foldl_closest_step_scanned bucket keys seen st :
  scanned bucket seen st →
  scanned bucket (seen ++ keys) (foldl (closest_step bucket) st keys).
Proof.
  revert seen st. induction keys as [|key keys IH]; intros seen st Hst; simpl.
  - by rewrite app_nil_r.
  - rewrite (cons_middle key seen keys), (assoc_L (++)).
    by apply IH, closest_step_scanned.
Qed.

Lemma closest_scanned (lookup : dict (option Z) price) bucket :
  scanned bucket (dict_keys lookup) (foldl (closest_step bucket) (None, None) (dict_keys lookup)).
Proof.
  apply (foldl_closest_step_scanned bucket (dict_keys lookup) []).
  split; [done|]. by intros k ?%elem_of_nil.
Qed.

(** The scan finds a nearest key when one lies within the
    tolerance. *)
Lemma closest_near (lookup : dict (option Z) price) bucket :
  (∃ k, Some k ∈ dict_keys lookup ∧ Z.abs (k - bucket) ≤ tolerance) →
  ∃ c, closest lookup bucket = Some c
    ∧ Some c ∈ dict_keys lookup
    ∧ Z.abs (c - bucket) ≤ tolerance
    ∧ ∀ k, Some k ∈ dict_keys lookup → Z.abs (c - bucket) ≤ Z.abs (k - bucket).
Proof.
  intros (k & Hk & Hnear). unfold closest.
  pose proof (closest_scanned lookup bucket) as Hs. unfold scanned in Hs.
  destruct (foldl _ _ _).1 as [c|].
  - exists c. tauto.
  - destruct Hs as [_ Hfar]. specialize (Hfar k Hk). lia.
Qed.

Lemma closest_far (lookup : dict (option Z) price) bucket :
  (∀ k, Some k ∈ dict_keys lookup → tolerance < Z.abs (k - bucket)) →
  closest lookup bucket = None.
Proof.
  intros Hfar. unfold closest.
  pose proof (closest_scanned lookup bucket) as Hs. unfold scanned in Hs.
  destruct (foldl _ _ _).1 as [c|]; [|done].
  destruct Hs as (_ & Hin & Htol & _). specialize (Hfar c Hin). lia.
Qed.

(** [resolve] on a bucket that is not a key of the lookup. *)
Lemma resolve_miss (lookup : dict (option Z) price) eval_time :
  dict_get lookup (Some (rounded eval_time)) = None →
  ((∃ k, Some k ∈ dict_keys lookup ∧ Z.abs (k - rounded eval_time) ≤ tolerance) →
     ∃ c p, Some c ∈ dict_keys lookup
       ∧ Z.abs (c - rounded eval_time) ≤ tolerance
       ∧ (∀ k, Some k ∈ dict_keys lookup →
            Z.abs (c - rounded eval_time) ≤ Z.abs (k - rounded eval_time))
       ∧ dict_get lookup (Some c) = Some p
       ∧ resolve lookup eval_time = Some p)
  ∧ ((∀ k, Some k ∈ dict_keys lookup → tolerance < Z.abs (k - rounded eval_time)) →
     resolve lookup eval_time = None).
Proof.
  intros Hmiss. unfold resolve. rewrite Hmiss. split.
  - intros Hnear. destruct (closest_near lookup _ Hnear) as (c & -> & Hin & Htol & Hmin).
    destruct (dict_get_is_Some lookup (Some c) Hin) as [p Hp].
    exists c, p. by rewrite Hp.
  - intros Hfar. by rewrite closest_far.
Qed.
End closest_facts.

Section price_claims.
Context `{!Library}.
Import PriceCSVLoader.
Local Open Scope Z_scope.

(** Both lookups normalise the asset name, load its table and read
    the lookup cache left by the load. *)
Lemma get_price_at_time_loaded disk cls asset eval_time :
  let api_asset := default (py.lower asset) (dict_get asset_map (py.lower asset)) in
  let loaded := _load_price_csv disk cls api_asset false in
  (get_price_at_time disk cls asset eval_time).2 =
  match loaded.2 with
  | None => None
  | Some df =>
      if pd.empty df then None
      else resolve (default [] (_price_lookup_cache loaded.1 !! api_asset)) eval_time
  end.
Proof.
  simpl. unfold get_price_at_time.
  destruct (_load_price_csv _ _ _ _) as [cls' [df|]]; simpl; [|done].
  by destruct (pd.empty df).
Qed.

Lemma fetch_prices_batch_loaded disk cls asset eval_times :
  let api_asset := default (py.lower asset) (dict_get asset_map (py.lower asset)) in
  let loaded := _load_price_csv disk cls api_asset false in
  eval_times ≠ [] →
  (fetch_prices_batch disk cls asset eval_times).2 =
  match loaded.2 with
  | None => []
  | Some df =>
      if pd.empty df then []
      else foldl (λ result eval_time,
                    dict_set result eval_time
                      (resolve (default [] (_price_lookup_cache loaded.1 !! api_asset)) eval_time))
             [] eval_times
  end.
Proof.
  simpl. intros Hne. unfold fetch_prices_batch.
  rewrite bool_decide_eq_false_2 by done.
  destruct (_load_price_csv _ _ _ _) as [cls' [df|]]; simpl; [|done].
  by destruct (pd.empty df).
Qed.

(** C4: for an asset whose price table is loaded, and a query whose
    5-minute bucket is not a key of the index, [get_price_at_time]
    returns the price of an indexed bucket nearest to the requested
    bucket when that distance is at most 300 seconds, and None when
    every indexed bucket is more than 300 seconds away; a bucket at
    exactly 300 seconds resolves, one at 301 seconds does not. *)
Theorem price_lookup_tolerance disk cls asset eval_time :
  let api_asset := default (py.lower asset) (dict_get asset_map (py.lower asset)) in
  let loaded := _load_price_csv disk cls api_asset false in
  let lookup := default [] (_price_lookup_cache loaded.1 !! api_asset) in
  let bucket := rounded eval_time in
  let distance k := Z.abs (k - bucket) in
  let answer := (get_price_at_time disk cls asset eval_time).2 in
  (∃ df, loaded.2 = Some df ∧ pd.empty df = false) →
  dict_get lookup (Some bucket) = None →
  ((∃ k, Some k ∈ dict_keys lookup ∧ distance k ≤ 300 * second_ns) →
     ∃ k p, Some k ∈ dict_keys lookup
       ∧ distance k ≤ 300 * second_ns
       ∧ (∀ k', Some k' ∈ dict_keys lookup → distance k ≤ distance k')
       ∧ dict_get lookup (Some k) = Some p
       ∧ answer = Some p)
  ∧ ((∀ k, Some k ∈ dict_keys lookup → 300 * second_ns < distance k) → answer = None)
  ∧ (∀ p, lookup = [(Some (bucket + 300 * second_ns), p)] → answer = Some p)
  ∧ (∀ p, lookup = [(Some (bucket + 301 * second_ns), p)] → answer = None).
Proof.
  simpl. intros (df & Hdf & Hne) Hmiss.
  rewrite get_price_at_time_loaded. simpl. rewrite Hdf, Hne.
  set (lookup := default [] _) in *.
  destruct (resolve_miss lookup eval_time Hmiss) as [Hnear Hfar].
  split; [exact Hnear|]. split; [exact Hfar|]. split.
  - intros p Hl.
    destruct Hnear as (c & p' & Hin & _ & _ & Hget & ->).
    { exists (rounded eval_time + 300 * second_ns). rewrite Hl. split.
      - apply list_elem_of_here.
      - unfold tolerance, second_ns. lia. }
    rewrite Hl in Hin, Hget. apply list_elem_of_singleton in Hin as [= ->].
    simpl in Hget. by rewrite decide_True in Hget.
  - intros p Hl. apply Hfar. intros k Hk.
    rewrite Hl in Hk. apply list_elem_of_singleton in Hk as [= ->].
    unfold tolerance, second_ns. lia.
Qed.

(** C5 (amended): when the price table of the asset is loaded and not
    empty, the result of [fetch_prices_batch] has an entry for every
    instant of the list, and it is what [get_price_at_time] answers
    for that instant, a price or None; when the table cannot be
    loaded (file missing or unreadable) or is empty, the result is
    the empty mapping. *)
Theorem fetch_prices_batch_entries disk cls asset (eval_times : list Z) :
  let api_asset := default (py.lower asset) (dict_get asset_map (py.lower asset)) in
  let loaded := _load_price_csv disk cls api_asset false in
  let result := (fetch_prices_batch disk cls asset eval_times).2 in
  ((∃ df, loaded.2 = Some df ∧ pd.empty df = false) →
     ∀ t, t ∈ eval_times →
       dict_get result t = Some (get_price_at_time disk cls asset t).2)
  ∧ ((loaded.2 = None ∨ ∃ df, loaded.2 = Some df ∧ pd.empty df = true) → result = []).
Proof.
  simpl. split.
  - intros (df & Hdf & Hne) t Ht.
    rewrite fetch_prices_batch_loaded by (intros ->; by apply elem_of_nil in Ht).
    rewrite get_price_at_time_loaded. simpl. rewrite Hdf, Hne.
    rewrite (dict_get_foldl_set (λ t, resolve _ t)).
    by rewrite decide_True.
  - intros Hfail.
    destruct eval_times as [|t ts]; [done|].
    rewrite fetch_prices_batch_loaded by done. simpl.
    destruct Hfail as [-> | (df & -> & ->)]; done.
Qed.

End price_claims.

(** C4, two runs: the file of [sample.disk_btc] has a price at 00:10:00,
    300 seconds from the bucket 00:05:00 of the query, and the price is
    returned; the cached lookup of [sample.cached_301] has its only key
    301 seconds from that bucket, and nothing is returned. *)
Lemma price_lookup_tolerance_witness :
  (PriceCSVLoader.get_price_at_time sample.disk_btc sample.fresh "BTC" sample.half_past_seven).2
    = Some (Some (Q2Qc (inject_Z 42000)))
  ∧ (PriceCSVLoader.get_price_at_time sample.disk_btc sample.cached_301 "BTC"
       sample.half_past_seven).2 = None.
Proof.
  split.
  - destruct (price_lookup_tolerance sample.disk_btc sample.fresh "BTC" sample.half_past_seven)
      as (_ & _ & H300 & _).
    + eexists. split; vm_compute; reflexivity.
    + vm_compute. reflexivity.
    + apply H300. vm_compute. reflexivity.
  - destruct (price_lookup_tolerance sample.disk_btc sample.cached_301 "BTC"
                sample.half_past_seven) as (_ & _ & _ & H301).
    + eexists. split; vm_compute; reflexivity.
    + vm_compute. reflexivity.
    + apply (H301 (Some (Q2Qc 42000))). vm_compute. reflexivity.
Defined.

(** C5, a run: both instants of the list have an entry. *)
Lemma fetch_prices_batch_entries_witness :
  let result :=
    (PriceCSVLoader.fetch_prices_batch sample.disk_btc sample.fresh "btc"
       [sample.half_past_seven; 0%Z]).2 in
  dict_get result sample.half_past_seven
    = Some (PriceCSVLoader.get_price_at_time sample.disk_btc sample.fresh "btc"
              sample.half_past_seven).2
  ∧ dict_get result 0%Z
    = Some (PriceCSVLoader.get_price_at_time sample.disk_btc sample.fresh "btc" 0%Z).2
  ∧ (PriceCSVLoader.fetch_prices_batch sample.no_files sample.fresh "btc"
       [sample.half_past_seven; 0%Z]).2 = [].
Proof.
  destruct (fetch_prices_batch_entries sample.disk_btc sample.fresh "btc"
              [sample.half_past_seven; 0%Z]) as [Hall _].
  destruct (fetch_prices_batch_entries sample.no_files sample.fresh "btc"
              [sample.half_past_seven; 0%Z]) as [_ Hnone].
  assert (Hloaded : ∃ df,
    (PriceCSVLoader._load_price_csv sample.disk_btc sample.fresh
       (default (py.lower "btc") (dict_get PriceCSVLoader.asset_map (py.lower "btc")))
       false).2 = Some df ∧ pd.empty df = false).
  { eexists. split; vm_compute; reflexivity. }
  split; [|split].
  - apply (Hall Hloaded). apply list_elem_of_here.
  - apply (Hall Hloaded). apply list_elem_of_further, list_elem_of_here.
  - apply Hnone. left. vm_compute. reflexivity.
Defined.

(** C5 (as the specification words it, refuted): with the price file
    missing, the instant asked for has no entry in the result. *)
Lemma missing_file_drops_instants :
  dict_get (PriceCSVLoader.fetch_prices_batch sample.no_files sample.fresh "btc" [0%Z]).2 0%Z
    = None.
Proof. vm_compute. reflexivity. Qed.

(** ** Series store *)

Section drop_duplicates_facts.
Local Open Scope list_scope.
Variable c : string.
Abbreviation row := (gmap string pd.Cell).
Abbreviation key := (λ r : row, r !! c).
Abbreviation dd := (pd.drop_duplicates_rows c).

Lemma drop_duplicates_rows_elem_of (l : list row) (r : row) : r ∈ dd l → r ∈ l.
Proof.
  induction l as [|x l IH]; simpl; [done|].
  case_decide.
  - intros Hr. by apply list_elem_of_further, IH.
  - intros [->|Hr]%elem_of_cons; [apply list_elem_of_here|].
    by apply list_elem_of_further, IH.
Qed.

(** No two rows left by [drop_duplicates] have the same key. *)
Lemma drop_duplicates_rows_NoDup (l : list row) : NoDup (key <$> dd l).
Proof.
  induction l as [|x l IH]; simpl; [constructor|].
  case_decide as Hx; [done|].
  simpl. constructor; [|done].
  intros Hin. apply Hx.
  apply list_elem_of_fmap in Hin as (y & Hy & Hin).
  apply list_elem_of_fmap. exists y. split; [done|].
  by apply drop_duplicates_rows_elem_of.
Qed.

Lemma drop_duplicates_rows_id (l : list row) : NoDup (key <$> l) → dd l = l.
Proof.
  induction l as [|x l IH]; simpl; [done|].
  intros [Hx Hl]%NoDup_cons.
  rewrite decide_False by done. f_equal. by apply IH.
Qed.

(** Rows of the first table survive when no later row of it, and no
    row of the second table, has their key. *)
Lemma drop_duplicates_rows_app (a b : list row) :
  dd (a ++ b) = filter (λ r, key r ∉ key <$> b) (dd a) ++ dd b.
Proof.
  induction a as [|x a IH]; simpl; [done|].
  rewrite fmap_app, IH.
  destruct (decide (x !! c ∈ key <$> a)) as [Ha|Ha].
  - rewrite decide_True by (apply elem_of_app; by left). done.
  - destruct (decide (x !! c ∈ key <$> b)) as [Hb|Hb].
    + rewrite decide_True by (apply elem_of_app; by right).
      by rewrite filter_cons_False by (intros Hn; by apply Hn).
    + rewrite decide_False by (intros [?|?]%elem_of_app; done).
      by rewrite filter_cons_True by done.
Qed.
End drop_duplicates_facts.

Section sort_values_facts.
Local Open Scope list_scope.
Variable c : string.
Abbreviation row' := (gmap string pd.Cell).
Abbreviation key' := (λ r : row', r !! c).
Abbreviation srt := (merge_sort (pd.by_key pd.desc c)).

#[global] Instance desc_trans : Transitive pd.desc.
Proof. intros [x|] [y|] [z|]; simpl; try done. lia. Qed.

#[global] Instance desc_total : Total pd.desc.
Proof. intros [x|] [y|]; simpl; try tauto. lia. Qed.

#[global] Instance by_key_desc_trans : Transitive (pd.by_key pd.desc c).
Proof. intros x y z. unfold pd.by_key. apply desc_trans. Qed.

#[global] Instance by_key_desc_total : Total (pd.by_key pd.desc c).
Proof. intros x y. unfold pd.by_key. apply desc_total. Qed.

Lemma desc_antisym (a b : option Z) : pd.desc a b → pd.desc b a → a = b.
Proof. destruct a, b; simpl; try done. intros. f_equal. lia. Qed.

Lemma instant_inj (a b : option pd.Cell) :
  datetime_cell a → datetime_cell b → pd.instant a = pd.instant b → a = b.
Proof. intros [->|[t ->]] [->|[t' ->]]; simpl; congruence. Qed.

(** Being sorted depends on the keys alone. *)
Lemma StronglySorted_by_key (R : relation (option Z)) (l : list row') :
  StronglySorted (pd.by_key R c) l ↔
  StronglySorted (λ a b, R (pd.instant a) (pd.instant b)) (key' <$> l).
Proof.
  induction l as [|x l IH]; simpl.
  - split; constructor.
  - split; intros [Hl Hx]%StronglySorted_inv; constructor.
    + by apply IH.
    + rewrite Forall_forall in Hx. apply Forall_forall.
      intros k (y & -> & Hy)%list_elem_of_fmap. by apply Hx.
    + by apply IH.
    + rewrite Forall_forall in Hx. apply Forall_forall.
      intros y Hy. apply (Hx (y !! c)).
      by apply (list_elem_of_fmap_2 (λ r : row', r !! c)).
Qed.

Lemma NoDup_key_inj (l : list row') (x y : row') :
  NoDup (key' <$> l) → x ∈ l → y ∈ l → x !! c = y !! c → x = y.
Proof.
  induction l as [|z l IH]; simpl; [by intros _ ?%elem_of_nil|].
  intros [Hz Hl]%NoDup_cons [->|Hx]%elem_of_cons [->|Hy]%elem_of_cons Hk; try done.
  - exfalso. apply Hz. rewrite Hk. by apply (list_elem_of_fmap_2 (λ r : row', r !! c)).
  - exfalso. apply Hz. rewrite <- Hk. by apply (list_elem_of_fmap_2 (λ r : row', r !! c)).
  - by apply IH.
Qed.

(** A table sorted on a datetime column without duplicate keys is the
    sort of each of its rearrangements. *)
Lemma sort_unique (l m : list row') :
  l ≡ₚ m → StronglySorted (pd.by_key pd.desc c) m →
  NoDup (key' <$> m) → Forall (λ r, datetime_cell (r !! c)) m →
  srt l = m.
Proof.
  intros Hperm Hsorted Hnodup Htyped.
  apply (StronglySorted_unique_strong (pd.by_key pd.desc c)).
  - intros x y Hx Hy Hxy Hyx.
    rewrite merge_sort_Permutation, Hperm in Hx.
    apply (NoDup_key_inj m); [done..|].
    rewrite Forall_forall in Htyped.
    apply instant_inj; [by apply Htyped..|].
    by apply desc_antisym.
  - apply StronglySorted_merge_sort; apply _.
  - done.
  - by rewrite merge_sort_Permutation.
Qed.
End sort_values_facts.

Section remerge.
Local Open Scope list_scope.
Variable c : string.
Variable d : list (gmap string pd.Cell).
Abbreviation row2 := (gmap string pd.Cell).
Abbreviation key2 := (λ r : row2, r !! c).
Abbreviation in_d := (λ r : row2, r !! c ∈ key2 <$> d).

Lemma imap_key (g : nat → row2 → row2) (l : list row2) :
  (∀ i r, g i r !! c = r !! c) → key2 <$> imap g l = key2 <$> l.
Proof.
  revert g. induction l as [|x l IH]; intros g Hg; simpl; [done|].
  rewrite Hg. f_equal. apply IH. intros i r. apply Hg.
Qed.

Lemma kept_key (g : nat → row2 → row2) i r :
  (∀ i r, g i r !! c = r !! c) → kept c d g i r !! c = r !! c.
Proof. intros Hg. unfold kept. case_decide; [done|apply Hg]. Qed.

Lemma filter_in_kept (g : nat → row2 → row2) (l : list row2) :
  (∀ i r, g i r !! c = r !! c) →
  filter in_d (imap (kept c d g) l) = filter in_d l.
Proof.
  revert g. induction l as [|x l IH]; intros g Hg; [done|].
  cbn [imap]. rewrite !filter_cons.
  change (kept c d g ∘ S) with (kept c d (g ∘ S)).
  rewrite (IH (g ∘ S)) by (intros i r; apply Hg).
  rewrite kept_key by done.
  destruct (decide (x !! c ∈ key2 <$> d)) as [Hx|Hx]; [|done].
  unfold kept at 1. by rewrite decide_True.
Qed.

Lemma filter_not_in_kept (g : nat → row2 → row2) (l : list row2) :
  (∀ i r, g i r !! c = r !! c) →
  filter (λ r, ¬ in_d r) (imap (kept c d g) l) = filter (λ r, ¬ in_d r) (imap g l).
Proof.
  revert g. induction l as [|x l IH]; intros g Hg; [done|].
  cbn [imap]. rewrite !filter_cons.
  change (kept c d g ∘ S) with (kept c d (g ∘ S)).
  rewrite (IH (g ∘ S)) by (intros i r; apply Hg).
  rewrite kept_key, Hg by done.
  destruct (decide (¬ x !! c ∈ key2 <$> d)) as [Hx|Hx]; [|done].
  unfold kept at 1. by rewrite decide_False.
Qed.

Lemma imap_kept (g : nat → row2 → row2) (l : list row2) :
  (∀ i r, g i (g i r) = g i r) →
  imap g (imap (kept c d g) l) = imap g l.
Proof.
  revert g. induction l as [|x l IH]; intros g Hg; [done|].
  cbn [imap]. change (kept c d g ∘ S) with (kept c d (g ∘ S)).
  rewrite (IH (g ∘ S)) by (intros i r; apply Hg).
  f_equal. unfold kept. case_decide; [done|apply Hg].
Qed.

(** Merging [d] again: the rows of the first merge, rewritten by [g]
    in between, come back with the rows of [d] restored. *)
Lemma remerge_rows (g : nat → row2 → row2) (e l : list row2) :
  l = merge_sort (pd.by_key pd.desc c) (pd.drop_duplicates_rows c (e ++ d)) →
  Forall (λ r, datetime_cell (r !! c)) e →
  Forall (λ r, datetime_cell (r !! c)) d →
  (∀ i r, g i r !! c = r !! c) →
  merge_sort (pd.by_key pd.desc c) (pd.drop_duplicates_rows c (imap g l ++ d))
    = imap (kept c d g) l.
Proof.
  intros Hl He Hd Hg.
  assert (Hperm : l ≡ₚ pd.drop_duplicates_rows c (e ++ d)).
  { rewrite Hl. apply merge_sort_Permutation. }
  assert (Hnodup : NoDup (key2 <$> l)).
  { rewrite Hperm. apply drop_duplicates_rows_NoDup. }
  assert (Hsorted : StronglySorted (pd.by_key pd.desc c) l).
  { rewrite Hl. apply StronglySorted_merge_sort; apply _. }
  assert (Htyped : Forall datetime_cell (key2 <$> l)).
  { apply Forall_fmap, Forall_forall. intros r Hr.
    rewrite Hperm in Hr. apply drop_duplicates_rows_elem_of in Hr.
    apply elem_of_app in Hr as [Hr|Hr].
    - rewrite Forall_forall in He. by apply He.
    - rewrite Forall_forall in Hd. by apply Hd. }
  assert (Hkeys : key2 <$> imap (kept c d g) l = key2 <$> l).
  { apply imap_key. intros i r. by apply kept_key. }
  assert (Hfrom_d : filter in_d l ≡ₚ pd.drop_duplicates_rows c d).
  { rewrite Hperm, drop_duplicates_rows_app, filter_app.
    rewrite (filter_none in_d (filter _ _)).
    - simpl. rewrite filter_all; [done|].
      intros r Hr. apply drop_duplicates_rows_elem_of in Hr.
      by apply (list_elem_of_fmap_2 (λ r : row2, r !! c)).
    - intros r Hr. by apply list_elem_of_filter in Hr as [? _]. }
  apply sort_unique.
  - rewrite drop_duplicates_rows_app.
    rewrite (drop_duplicates_rows_id c (imap g l)) by by rewrite imap_key.
    rewrite <- (filter_app_complement in_d (imap (kept c d g) l)).
    rewrite filter_in_kept, filter_not_in_kept by done.
    rewrite Hfrom_d. apply Permutation_app_comm.
  - apply StronglySorted_by_key. rewrite Hkeys. by apply StronglySorted_by_key.
  - by rewrite Hkeys.
  - apply Forall_forall. intros r Hr.
    rewrite Forall_forall in Htyped. apply Htyped.
    rewrite <- Hkeys. by apply (list_elem_of_fmap_2 (λ r : row2, r !! c)).
Qed.
End remerge.

Section store_facts.
Context `{!Library}.
Import DataManager.
Local Open Scope list_scope.

Lemma _update_stats_insert (md : gmap string pd.DataFrame) (miner_name : string)
    (df : pd.DataFrame) :
  _update_stats {| miner_data := <[miner_name := df]> md |} miner_name
  = {| miner_data := <[miner_name := stats_frame df]> md |}.
Proof.
  unfold _update_stats, stats_frame. simpl. rewrite lookup_insert_eq.
  destruct (pd.empty df); [done|].
  case_decide; [|done].
  destruct (compare_with_cutoff _); [|done].
  destruct (to_datetime _); [|done].
  by rewrite insert_insert_eq.
Qed.

(** [update_miner_data] in one step: what is stored for the source. *)
Lemma update_miner_data_stored (self : t) (miner_name : string) (df : pd.DataFrame) :
  update_miner_data self miner_name df =
  {| miner_data :=
       <[miner_name := stats_frame (match miner_data self !! miner_name with
                                     | Some existing => merged existing df
                                     | None => df
                                     end)]> (miner_data self) |}.
Proof.
  unfold update_miner_data.
  destruct (miner_data self !! miner_name) as [existing|];
    by rewrite _update_stats_insert.
Qed.

Lemma columns_absorb (cols more : list string) :
  more ⊆ cols → cols ++ filter (λ c, c ∉ cols) more = cols.
Proof.
  intros Hsub. rewrite filter_none; [by rewrite app_nil_r|].
  intros c Hc Hn. by apply Hn, Hsub.
Qed.

Lemma columns_concat_r (a b : pd.DataFrame) : pd.columns b ⊆ pd.columns (pd.concat a b).
Proof.
  intros c Hc. simpl. destruct (decide (c ∈ pd.columns a)).
  - apply elem_of_app. by left.
  - apply elem_of_app. right. by apply list_elem_of_filter.
Qed.

Lemma timestamp_col_columns (a b : pd.DataFrame) :
  ("timestamp" ∈ pd.columns a ↔ "timestamp" ∈ pd.columns b) →
  timestamp_col a = timestamp_col b.
Proof.
  intros Hiff. unfold timestamp_col.
  destruct (decide ("timestamp" ∈ pd.columns a)), (decide ("timestamp" ∈ pd.columns b));
    tauto.
Qed.

Lemma timestamp_col_cases (df : pd.DataFrame) :
  timestamp_col df = "timestamp" ∨ timestamp_col df = "datetime".
Proof. unfold timestamp_col. case_decide; auto. Qed.

Lemma assign_key (c c' : string) v (r : gmap string pd.Cell) :
  c ≠ c' → pd.assign c v r !! c' = r !! c'.
Proof.
  intros Hne. unfold pd.assign. destruct v.
  - by rewrite lookup_insert_ne.
  - by rewrite lookup_delete_ne.
Qed.

Lemma assign_idemp (c : string) v (r : gmap string pd.Cell) :
  pd.assign c v (pd.assign c v r) = pd.assign c v r.
Proof.
  unfold pd.assign. destruct v.
  - by rewrite insert_insert_eq.
  - apply map_eq. intros i. destruct (decide (c = i)) as [->|?].
    + by rewrite !lookup_delete_eq.
    + by rewrite !lookup_delete_ne.
Qed.

Lemma imap_same {A} (h : nat → A → A) (l : list A) :
  (∀ i x, h i x = x) → imap h l = l.
Proof.
  revert h. induction l as [|x l IH]; intros h Hh; simpl; [done|].
  rewrite Hh. f_equal. apply IH. intros i y. apply Hh.
Qed.

Lemma imap_id_kept (c : string) (d l : list (gmap string pd.Cell)) :
  imap (kept c d (λ _ r, r)) l = l.
Proof. apply imap_same. intros i r. unfold kept. by case_decide. Qed.
End store_facts.

Section merge_claims.
Context `{!Library}.
Import DataManager.
Local Open Scope list_scope.

(** The first merge, spelled out. *)
Lemma merged_keyed (existing df : pd.DataFrame) :
  timestamp_col (pd.concat existing df) ∈ pd.columns (pd.concat existing df) →
  merged existing df =
  {| pd.columns := pd.columns (pd.concat existing df);
     pd.rows := merge_sort (pd.by_key pd.desc (timestamp_col (pd.concat existing df)))
                  (pd.drop_duplicates_rows (timestamp_col (pd.concat existing df))
                     (pd.rows existing ++ pd.rows df)) |}.
Proof. intros Hc. unfold merged. simpl. by rewrite decide_True. Qed.

(** Merging [df] into a table [p] that has the columns [cols1] of an
    earlier merge of [df], and possibly pred_time. *)
Lemma merged_again (p df : pd.DataFrame) (tc : string) :
  pd.columns df ⊆ pd.columns p →
  timestamp_col p = tc → tc ∈ pd.columns p →
  merged p df =
  {| pd.columns := pd.columns p;
     pd.rows := merge_sort (pd.by_key pd.desc tc)
                  (pd.drop_duplicates_rows tc (pd.rows p ++ pd.rows df)) |}.
Proof.
  intros Hsub Htc Hin.
  assert (Hcols : pd.columns (pd.concat p df) = pd.columns p).
  { simpl. by apply columns_absorb. }
  assert (Htc' : timestamp_col (pd.concat p df) = tc).
  { rewrite <- Htc. apply timestamp_col_columns. by rewrite Hcols. }
  rewrite merged_keyed by (by rewrite Htc', Hcols).
  by rewrite Htc', Hcols.
Qed.

(** Merging the delta once more and running the statistics pass gives
    the stored table back. *)
Lemma stats_frame_merged_idemp (existing df : pd.DataFrame) :
  timestamp_col (pd.concat existing df) ∈ pd.columns (pd.concat existing df) →
  datetime_column (timestamp_col (pd.concat existing df)) existing →
  datetime_column (timestamp_col (pd.concat existing df)) df →
  stats_frame (merged (stats_frame (merged existing df)) df)
  = stats_frame (merged existing df).
Proof.
  intros Hin He Hd.
  set (tc := timestamp_col (pd.concat existing df)) in *.
  set (cols := pd.columns (pd.concat existing df)) in *.
  rewrite (merged_keyed existing df Hin). fold tc cols.
  set (l := merge_sort _ _).
  assert (Hl : l = merge_sort (pd.by_key pd.desc tc)
                     (pd.drop_duplicates_rows tc (pd.rows existing ++ pd.rows df)))
    by done.
  clearbody l.
  set (s1 := {| pd.columns := cols; pd.rows := l |}).
  assert (Htc1 : timestamp_col s1 = tc).
  { apply timestamp_col_columns. done. }
  assert (Hsub : pd.columns df ⊆ cols) by apply columns_concat_r.
  (* a second merge into the table of the first, when the statistics
     pass wrote nothing *)
  assert (Hsame : merged s1 df = s1).
  { rewrite (merged_again s1 df tc) by done. unfold s1. simpl. f_equal.
    rewrite <- (imap_id_kept tc (pd.rows df) l) at 2.
    rewrite <- (remerge_rows tc (pd.rows df) (λ _ r, r) (pd.rows existing) l)
      by done.
    by rewrite (imap_same (λ _ r, r)). }
  unfold stats_frame at 2. fold s1.
  destruct (pd.empty s1) eqn:Hempty; [by rewrite Hsame|].
  rewrite Htc1. rewrite decide_True by done.
  change (pd.column tc s1) with ((λ r : gmap string pd.Cell, r !! tc) <$> l).
  destruct (compare_with_cutoff _) as [[]|e1] eqn:Hcmp; [|by rewrite Hsame].
  destruct (to_datetime _) as [pt|e2] eqn:Hconv; [|by rewrite Hsame].
  (* the statistics pass wrote the column pred_time *)
  set (g := λ (i : nat) (r : gmap string pd.Cell),
              pd.assign "pred_time" (mjoin (pt !! i)) r).
  set (p1 := pd.setitem s1 "pred_time" pt).
  assert (Hrhs : stats_frame s1 = p1).
  { unfold stats_frame. rewrite Hempty, Htc1, decide_True by done.
    change (pd.column tc s1) with ((λ r : gmap string pd.Cell, r !! tc) <$> l).
    by rewrite Hcmp, Hconv. }
  rewrite Hrhs.
  assert (Hne : "pred_time" ≠ tc).
  { destruct (timestamp_col_cases (pd.concat existing df)) as [H1|H1];
      unfold tc; rewrite H1; done. }
  assert (Hg_key : ∀ i r, g i r !! tc = r !! tc).
  { intros i r. by apply assign_key. }
  assert (Hg_idemp : ∀ i r, g i (g i r) = g i r).
  { intros i r. apply assign_idemp. }
  assert (Hcols1 : cols ⊆ pd.columns p1).
  { intros c Hc. unfold p1. simpl. case_decide; [done|]. apply elem_of_app. by left. }
  assert (Hpt1 : "pred_time" ∈ pd.columns p1).
  { unfold p1. simpl. case_decide; [done|]. apply elem_of_app. right.
    apply list_elem_of_here. }
  assert (Htcp : timestamp_col p1 = tc).
  { rewrite <- Htc1. apply timestamp_col_columns. unfold p1. simpl.
    case_decide; [done|]. rewrite elem_of_app, list_elem_of_singleton.
    split; [intros [?|?]; done|intros ?; by left]. }
  rewrite (merged_again p1 df tc);
    [|intros c Hc; by apply Hcols1, Hsub|done|by apply Hcols1].
  change (pd.rows p1) with (imap g l).
  rewrite (remerge_rows tc (pd.rows df) g (pd.rows existing) l) by done.
  set (s2 := {| pd.columns := pd.columns p1; pd.rows := imap (kept tc (pd.rows df) g) l |}).
  assert (Hkeys : (λ r : gmap string pd.Cell, r !! tc) <$> pd.rows s2
                  = (λ r : gmap string pd.Cell, r !! tc) <$> l).
  { apply imap_key. intros i r. by apply kept_key. }
  assert (Hempty2 : pd.empty s2 = false).
  { unfold pd.empty in *. apply orb_false_iff in Hempty as [_ Hr].
    apply orb_false_iff. split.
    - apply bool_decide_eq_false. intros Hnil. change (pd.columns p1 = []) in Hnil. rewrite Hnil in Hpt1.
      by apply elem_of_nil in Hpt1.
    - apply bool_decide_eq_false. apply bool_decide_eq_false in Hr.
      simpl in *. destruct l; [done|]. done. }
  unfold stats_frame. rewrite Hempty2.
  assert (Htc2 : timestamp_col s2 = tc) by (by rewrite <- Htcp).
  rewrite Htc2. rewrite decide_True by (by apply Hcols1).
  unfold pd.column. rewrite Hkeys, Hcmp, Hconv.
  unfold pd.setitem. simpl pd.columns at 1 2. simpl pd.rows.
  rewrite decide_True by done.
  fold g. rewrite imap_kept by done.
  done.
Qed.

(** The statistics pass leaves a table without key column as it is. *)
Lemma stats_frame_unkeyed (df : pd.DataFrame) :
  timestamp_col df ∉ pd.columns df → stats_frame df = df.
Proof.
  intros Hn. unfold stats_frame. destruct (pd.empty df); [done|].
  by rewrite decide_False.
Qed.

(** Without key column the merge is the concatenation. *)
Lemma merged_unkeyed (existing df : pd.DataFrame) :
  timestamp_col (pd.concat existing df) ∉ pd.columns (pd.concat existing df) →
  merged existing df = pd.concat existing df.
Proof. intros Hn. unfold merged. simpl. by rewrite decide_False. Qed.

(** The delta brings no new column to a table it was merged into. *)
Lemma concat_again (existing df : pd.DataFrame) :
  pd.concat (pd.concat existing df) df
  = {| pd.columns := pd.columns (pd.concat existing df);
       pd.rows := pd.rows existing ++ pd.rows df ++ pd.rows df |}.
Proof.
  unfold pd.concat at 1. f_equal.
  - apply columns_absorb, columns_concat_r.
  - simpl. by rewrite <- (assoc_L (++)).
Qed.

(** C1 (amended): for a source that already has a stored table,
    (1) when the key column (timestamp, else datetime) is present and
    holds instants as decoded by parse_csv, merging the same delta
    twice leaves the store as merging it once does; (2) when neither
    the stored table nor the delta has a timestamp or datetime column,
    every merge appends the rows of the delta without deduplication:
    one merge stores the rows of the table followed by those of the
    delta, a second merge stores the rows of the delta once more, and
    for a delta that has a row the two stores differ. *)
Theorem merge_idempotent (self : t) (miner_name : string) (existing df : pd.DataFrame) :
  miner_data self !! miner_name = Some existing →
  (timestamp_col (pd.concat existing df) ∈ pd.columns (pd.concat existing df) →
   datetime_column (timestamp_col (pd.concat existing df)) existing →
   datetime_column (timestamp_col (pd.concat existing df)) df →
   update_miner_data (update_miner_data self miner_name df) miner_name df
   = update_miner_data self miner_name df)
  ∧ (timestamp_col (pd.concat existing df) ∉ pd.columns (pd.concat existing df) →
     miner_data (update_miner_data self miner_name df) !! miner_name
     = Some {| pd.columns := pd.columns (pd.concat existing df);
               pd.rows := pd.rows existing ++ pd.rows df |}
     ∧ miner_data (update_miner_data (update_miner_data self miner_name df) miner_name df)
         !! miner_name
       = Some {| pd.columns := pd.columns (pd.concat existing df);
                 pd.rows := pd.rows existing ++ pd.rows df ++ pd.rows df |}
     ∧ (pd.rows df ≠ [] →
        update_miner_data (update_miner_data self miner_name df) miner_name df
        ≠ update_miner_data self miner_name df)).
Proof.
  intros Hex. split.
  - intros Hin He Hd.
    rewrite (update_miner_data_stored self), Hex.
    rewrite update_miner_data_stored. simpl.
    rewrite lookup_insert_eq, insert_insert_eq.
    by rewrite stats_frame_merged_idemp.
  - intros Hn.
    assert (Hn2 : timestamp_col (pd.concat (pd.concat existing df) df)
                  ∉ pd.columns (pd.concat (pd.concat existing df) df)).
    { rewrite concat_again.
      rewrite (timestamp_col_columns _ (pd.concat existing df)) by done. done. }
    assert (Honce : miner_data (update_miner_data self miner_name df) !! miner_name
                    = Some (pd.concat existing df)).
    { rewrite update_miner_data_stored, Hex. simpl. rewrite lookup_insert_eq.
      by rewrite merged_unkeyed, stats_frame_unkeyed. }
    assert (Htwice : miner_data (update_miner_data (update_miner_data self miner_name df)
                                   miner_name df) !! miner_name
                     = Some (pd.concat (pd.concat existing df) df)).
    { rewrite update_miner_data_stored, Honce. simpl. rewrite lookup_insert_eq.
      by rewrite merged_unkeyed, stats_frame_unkeyed. }
    split; [exact Honce|]. split; [by rewrite Htwice, concat_again|].
    intros Hrows Heq. rewrite Heq, Honce in Htwice.
    apply (f_equal (fmap (λ d, length (pd.rows d)))) in Htwice.
    simpl in Htwice. injection Htwice as Hr. rewrite !length_app in Hr.
    destruct (pd.rows df); [done|]. simpl in Hr. lia.
Qed.
End merge_claims.

(** C1, two runs.  The store holds the rows of [sample.delta], which
    have the key column: merging [sample.delta] twice leaves what
    merging it once leaves.  The store holds the row of
    [sample.unkeyed], which has no key column: after two merges of
    [sample.unkeyed] the row is stored three times. *)
Lemma merge_idempotent_witness :
  DataManager.update_miner_data
    (DataManager.update_miner_data (sample.holds sample.delta) "miner" sample.delta)
    "miner" sample.delta
  = DataManager.update_miner_data (sample.holds sample.delta) "miner" sample.delta
  ∧ DataManager.miner_data
      (DataManager.update_miner_data
         (DataManager.update_miner_data (sample.holds sample.unkeyed) "miner" sample.unkeyed)
         "miner" sample.unkeyed) !! "miner"
    = Some {| pd.columns := ["btc_prediction"];
              pd.rows := pd.rows sample.unkeyed ++ pd.rows sample.unkeyed
                         ++ pd.rows sample.unkeyed |}.
Proof.
  split.
  - apply (merge_idempotent (sample.holds sample.delta) "miner" sample.delta sample.delta).
    + reflexivity.
    + vm_compute. apply list_elem_of_here.
    + apply Forall_forall. intros r Hr. simpl in Hr. unfold datetime_cell.
      repeat (apply elem_of_cons in Hr as [->|Hr]; [right; eexists; reflexivity|]).
      by apply elem_of_nil in Hr.
    + apply Forall_forall. intros r Hr. simpl in Hr. unfold datetime_cell.
      repeat (apply elem_of_cons in Hr as [->|Hr]; [right; eexists; reflexivity|]).
      by apply elem_of_nil in Hr.
  - apply (merge_idempotent (sample.holds sample.unkeyed) "miner" sample.unkeyed
             sample.unkeyed).
    + reflexivity.
    + apply (bool_decide_eq_false_1 _). vm_compute. reflexivity.
Defined.

(** C1 (as the specification words it, refuted): rows without a
    timestamp or datetime column are appended at each merge, so merging
    them twice into a store that holds a table differs from merging them
    once. *)
Lemma merge_twice_differs_without_key :
  DataManager.update_miner_data
    (DataManager.update_miner_data (sample.holds sample.unkeyed) "miner" sample.unkeyed)
    "miner" sample.unkeyed
  ≠ DataManager.update_miner_data (sample.holds sample.unkeyed) "miner" sample.unkeyed.
Proof.
  intros Heq.
  apply (f_equal (λ s, length <$> (pd.rows <$> DataManager.miner_data s !! "miner"))) in Heq.
  vm_compute in Heq. discriminate Heq.
Qed.

(** C2: the first table merged for a source is stored as it comes.
    [sample.delta] has two rows at instant 2 and is in ascending order;
    after the merge the stored keys are 1, 2, 2. *)
Theorem first_merge_keeps_duplicates :
  ∃ stored,
    DataManager.miner_data
      (DataManager.update_miner_data sample.no_data "miner" sample.delta) !! "miner"
      = Some stored
    ∧ pd.column "timestamp" stored
      = [Some (pd.Timestamp 1); Some (pd.Timestamp 2); Some (pd.Timestamp 2)]
    ∧ ¬ NoDup (pd.column "timestamp" stored).
Proof.
  eexists. split; [vm_compute; reflexivity|]. split; [vm_compute; reflexivity|].
  vm_compute. intros Hnd. apply NoDup_cons in Hnd as [_ Hnd].
  apply NoDup_cons in Hnd as [Hin _]. apply Hin. apply list_elem_of_here.
Qed.

(** C9: the collapse to one row per timestamp combines the rows of a
    timestamp field by field.  Of the two rows of [sample.concurrent]
    the first seen has no prediction; both endpoints answer with the
    prediction of the second. *)
Theorem collapse_combines_rows :
  main.get_predictions sample.concurrent 50
    = Return [ [ ("timestamp", Some (pd.Timestamp 1));
                 ("datetime", Some (pd.Text ""));
                 ("validator_hotkey", Some (pd.Text ""));
                 ("assets", Some (pd.Text ""));
                 ("processing_time_seconds", Some (pd.Number 0%Qc));
                 ("btc_prediction", Some (pd.Number (Q2Qc 5))) ] ]
  ∧ pd.rows (main.rows_to_process sample.concurrent None None 100) = [sample.second_seen]
  ∧ sample.second_seen ≠ sample.first_seen
  ∧ CSVParser.pred_data_of ["timestamp"; "btc_prediction"] ["btc"] sample.first_seen
    = Return [ ("timestamp", Some (pd.Timestamp 1));
               ("datetime", Some (pd.Text ""));
               ("validator_hotkey", Some (pd.Text ""));
               ("assets", Some (pd.Text ""));
               ("processing_time_seconds", Some (pd.Number 0%Qc));
               ("btc_prediction", None) ].
Proof.
  split; [vm_compute; reflexivity|]. split; [vm_compute; reflexivity|].
  split; [|vm_compute; reflexivity].
  intros Heq. apply (f_equal (λ r, r !! "btc_prediction")) in Heq.
  vm_compute in Heq. discriminate Heq.
Qed.

(** ** Series store: what a merge into a stored table keeps *)

Section merge_extras.
Context `{!Library}.
Import DataManager.
Local Open Scope list_scope.

Lemma column_assign_ne (c c' : string) (g : nat → option pd.Cell)
    (l : list (gmap string pd.Cell)) :
  c ≠ c' →
  (λ r : gmap string pd.Cell, r !! c') <$> imap (λ i r, pd.assign c (g i) r) l
  = (λ r : gmap string pd.Cell, r !! c') <$> l.
Proof.
  intros Hne. apply imap_key. intros i r. by apply assign_key.
Qed.

(** The statistics pass leaves every column but pred_time as it is. *)
Lemma column_stats_frame (c : string) (df : pd.DataFrame) :
  c ≠ "pred_time" → pd.column c (stats_frame df) = pd.column c df.
Proof.
  intros Hne. unfold stats_frame.
  destruct (pd.empty df); [done|]. case_decide; [|done].
  destruct (compare_with_cutoff _); [|done].
  destruct (to_datetime _); [|done].
  unfold pd.column, pd.setitem. simpl. by apply column_assign_ne.
Qed.

Lemma timestamp_col_ne_pred_time (df : pd.DataFrame) : timestamp_col df ≠ "pred_time".
Proof. destruct (timestamp_col_cases df) as [-> | ->]; done. Qed.

(** After a merge into a source that has a table, on a key column that
    is present, no two stored rows have the same key and the rows are
    in descending order of their instants, NaT last. *)
Theorem merge_unique_sorted (self : t) (miner_name : string) (existing df : pd.DataFrame) :
  miner_data self !! miner_name = Some existing →
  timestamp_col (pd.concat existing df) ∈ pd.columns (pd.concat existing df) →
  ∃ stored,
    miner_data (update_miner_data self miner_name df) !! miner_name = Some stored
    ∧ NoDup (pd.column (timestamp_col (pd.concat existing df)) stored)
    ∧ StronglySorted (λ a b, pd.desc (pd.instant a) (pd.instant b))
        (pd.column (timestamp_col (pd.concat existing df)) stored).
Proof.
  intros Hex Hin. rewrite update_miner_data_stored, Hex. simpl.
  eexists. split; [by rewrite lookup_insert_eq|].
  rewrite column_stats_frame by apply timestamp_col_ne_pred_time.
  rewrite merged_keyed by done. unfold pd.column. simpl.
  set (tc := timestamp_col _). split.
  - rewrite merge_sort_Permutation. apply drop_duplicates_rows_NoDup.
  - apply (StronglySorted_by_key tc pd.desc).
    apply StronglySorted_merge_sort; apply _.
Qed.

End merge_extras.

(** A run of [merge_unique_sorted]: [sample.delta], with a duplicate
    key, merged into a store that holds it. *)
Lemma merge_unique_sorted_witness :
  ∃ stored,
    DataManager.miner_data
      (DataManager.update_miner_data (sample.holds sample.delta) "miner" sample.delta)
      !! "miner" = Some stored
    ∧ NoDup (pd.column "timestamp" stored).
Proof.
  destruct (merge_unique_sorted (sample.holds sample.delta) "miner" sample.delta sample.delta)
    as (stored & Hs & Hnd & _).
  - reflexivity.
  - vm_compute. apply list_elem_of_here.
  - exists stored. split; [exact Hs|exact Hnd].
Defined.

Section merge_content.
Context `{!Library}.
Import DataManager.
Local Open Scope list_scope.

Lemma drop_duplicates_rows_keys (c : string) (l : list (gmap string pd.Cell))
    (k : option pd.Cell) :
  k ∈ (λ r : gmap string pd.Cell, r !! c) <$> pd.drop_duplicates_rows c l
  ↔ k ∈ (λ r : gmap string pd.Cell, r !! c) <$> l.
Proof.
  induction l as [|x l IH]; simpl; [done|].
  case_decide as Hx.
  - rewrite IH, elem_of_cons. split; [auto|]. by intros [->|?].
  - simpl. by rewrite !elem_of_cons, IH.
Qed.

(** A row left by [drop_duplicates] is the last row of its key. *)
Lemma drop_duplicates_rows_last (c : string) (l : list (gmap string pd.Cell))
    (r : gmap string pd.Cell) :
  r ∈ pd.drop_duplicates_rows c l →
  last (filter (λ r', r' !! c = r !! c) l) = Some r.
Proof.
  induction l as [|x l IH]; simpl; [by intros ?%elem_of_nil|].
  rewrite filter_cons.
  destruct (decide (x !! c ∈ (λ r' : gmap string pd.Cell, r' !! c) <$> l)) as [Hx|Hx].
  - intros Hr. specialize (IH Hr).
    destruct (decide (x !! c = r !! c)); [|done].
    destruct (filter _ l); [done|]. done.
  - intros [->|Hr]%elem_of_cons.
    + rewrite decide_True by done.
      rewrite filter_none; [done|].
      intros y Hy Hk. apply Hx. rewrite <- Hk.
      by apply (list_elem_of_fmap_2 (λ r' : gmap string pd.Cell, r' !! c)).
    + specialize (IH Hr).
      destruct (decide (x !! c = r !! c)); [|done].
      destruct (filter _ l); [done|]. done.
Qed.

Lemma last_app_nonempty {A} (a b : list A) : b ≠ [] → last (a ++ b) = last b.
Proof.
  intros Hb. destruct b as [|y b _] using rev_ind; [done|].
  by rewrite (assoc_L (++)), !last_snoc.
Qed.

Lemma stats_frame_rows (df : pd.DataFrame) (r : gmap string pd.Cell) :
  r ∈ pd.rows (stats_frame df) →
  ∃ r0, r0 ∈ pd.rows df ∧ ∀ c, c ≠ "pred_time" → r !! c = r0 !! c.
Proof.
  unfold stats_frame.
  assert (Hid : r ∈ pd.rows df →
    ∃ r0, r0 ∈ pd.rows df ∧ ∀ c, c ≠ "pred_time" → r !! c = r0 !! c) by eauto.
  destruct (pd.empty df); [done|]. case_decide; [|done].
  destruct (compare_with_cutoff _); [|done].
  destruct (to_datetime _); [|done].
  simpl. intros (i & r0 & -> & Hr0)%elem_of_lookup_imap.
  exists r0. split; [by eapply list_elem_of_lookup_2|].
  intros c Hc. by apply assign_key.
Qed.

(** What a merge into a stored table keeps, on a key column that is
    present: the stored keys are those of the stored table and of the
    delta; the row stored for a key of the delta is the last row of the
    delta with that key, the row stored for another key is the last row
    of the earlier table with that key (the column pred_time, written
    by the statistics pass, apart). *)
Theorem merge_last_wins (self : t) (miner_name : string) (existing df : pd.DataFrame) :
  miner_data self !! miner_name = Some existing →
  timestamp_col (pd.concat existing df) ∈ pd.columns (pd.concat existing df) →
  let tc := timestamp_col (pd.concat existing df) in
  ∃ stored,
    miner_data (update_miner_data self miner_name df) !! miner_name = Some stored
    ∧ (∀ k, k ∈ pd.column tc stored ↔ k ∈ pd.column tc existing ∨ k ∈ pd.column tc df)
    ∧ (∀ r, r ∈ pd.rows stored →
         ∃ r0, (∀ c, c ≠ "pred_time" → r !! c = r0 !! c)
           ∧ last (filter (λ r', r' !! tc = r !! tc)
                     (if decide (r !! tc ∈ pd.column tc df)
                      then pd.rows df else pd.rows existing)) = Some r0).
Proof.
  intros Hex Hin tc. rewrite update_miner_data_stored, Hex. simpl.
  eexists. split; [by rewrite lookup_insert_eq|].
  assert (Hne : tc ≠ "pred_time") by apply timestamp_col_ne_pred_time.
  split.
  - intros k. rewrite column_stats_frame by done.
    rewrite merged_keyed by done. unfold pd.column. simpl. fold tc.
    rewrite merge_sort_Permutation, drop_duplicates_rows_keys, fmap_app.
    apply elem_of_app.
  - intros r (r0 & Hr0 & Hsame)%stats_frame_rows.
    exists r0. split; [done|].
    rewrite (Hsame tc Hne).
    rewrite merged_keyed in Hr0 by done. simpl in Hr0. fold tc in Hr0.
    rewrite merge_sort_Permutation in Hr0.
    pose proof (drop_duplicates_rows_last tc _ r0 Hr0) as Hlast.
    rewrite filter_app in Hlast.
    rewrite drop_duplicates_rows_app in Hr0.
    case_decide as Hd.
    + rewrite last_app_nonempty in Hlast; [done|].
      unfold pd.column in Hd.
      apply list_elem_of_fmap in Hd as (y & Hy & Hd).
      intros Hnil.
      assert (Hy' : y ∈ filter (λ r', r' !! tc = r0 !! tc) (pd.rows df))
        by by apply list_elem_of_filter.
      rewrite Hnil in Hy'. by apply elem_of_nil in Hy'.
    + rewrite (filter_none _ (pd.rows df)) in Hlast.
      * by rewrite app_nil_r in Hlast.
      * intros y Hy Hk. apply Hd. rewrite <- Hk.
        by apply (list_elem_of_fmap_2 (λ r' : gmap string pd.Cell, r' !! tc)).
Qed.

End merge_content.

(** A run of [merge_last_wins]: the store holds [sample.delta] and
    [sample.delta] is merged again; the stored keys are those of
    [sample.delta]. *)
Lemma merge_last_wins_witness :
  ∃ stored,
    DataManager.miner_data
      (DataManager.update_miner_data (sample.holds sample.delta) "miner" sample.delta)
      !! "miner" = Some stored
    ∧ ∀ k, k ∈ pd.column "timestamp" stored ↔
           k ∈ pd.column "timestamp" sample.delta ∨ k ∈ pd.column "timestamp" sample.delta.
Proof.
  destruct (merge_last_wins (sample.holds sample.delta) "miner" sample.delta sample.delta)
    as (stored & Hs & Hk & _).
  - reflexivity.
  - vm_compute. apply list_elem_of_here.
  - exists stored. split; [exact Hs|exact Hk].
Defined.

(** ** Price cache: buckets, index and cache *)

Section bucket_facts.
Import PriceCSVLoader.
Local Open Scope Z_scope.

(** The 5-minute bucket of an instant: it is not after the instant and
    less than 300 seconds before it, rounding a bucket changes nothing,
    and it lies on a multiple of 300 seconds but for the nanoseconds
    below the microsecond, which [replace] keeps. *)
Theorem rounded_bucket (dt : Z) :
  rounded dt ≤ dt < rounded dt + 300 * second_ns
  ∧ rounded (rounded dt) = rounded dt
  ∧ (rounded dt - dt mod 1000) mod (300 * second_ns) = 0.
Proof.
  assert (Hform : ∃ j, rounded dt = 300000000000 * j + dt mod 1000
                     ∧ 300000000000 * j + dt mod 1000 ≤ dt
                       < 300000000000 * j + dt mod 1000 + 300000000000).
  { unfold rounded, replace, minute, hour_ns, minute_ns.
    exists (12 * (dt / 3600000000000) + (dt / 60000000000) mod 60 / 5).
    Z.div_mod_to_equations. lia. }
  destruct Hform as (j & Hr & Hle).
  assert (Hagain : ∀ x j, x = 300000000000 * j + x mod 1000 → rounded x = x).
  { intros x i Hx. unfold rounded, replace, minute, hour_ns, minute_ns.
    Z.div_mod_to_equations. lia. }
  unfold second_ns. split; [lia|]. split.
  - apply (Hagain _ j). rewrite Hr. Z.div_mod_to_equations. lia.
  - rewrite Hr. replace (300000000000 * j + dt mod 1000 - dt mod 1000)
      with (j * (300 * 1000000000)) by lia.
    apply Z.mod_mul. lia.
Qed.

End bucket_facts.

Section resolve_extras.
Context `{!Library}.
Import PriceCSVLoader.
Local Open Scope Z_scope.

Lemma dict_get_Some_keys {K V} `{EqDecision K} (d : dict K V) (k : K) (v : V) :
  dict_get d k = Some v → k ∈ dict_keys d.
Proof.
  intros Hget. apply dict_get_elem_of in Hget.
  unfold dict_keys. by apply (list_elem_of_fmap_2 fst) in Hget.
Qed.

Lemma closest_Some (lookup : dict (option Z) price) (bucket c : Z) :
  closest lookup bucket = Some c →
  Some c ∈ dict_keys lookup ∧ Z.abs (c - bucket) ≤ tolerance.
Proof.
  unfold closest. intros Hc.
  pose proof (closest_scanned lookup bucket) as Hs. unfold scanned in Hs.
  rewrite Hc in Hs. tauto.
Qed.

(** A price that [get_price_at_time] returns is the indexed price of a
    bucket at most 300 seconds from the bucket of the query, and of that
    very bucket when it is indexed. *)
Theorem price_within_tolerance disk cls asset (eval_time : Z) (p : price) :
  let api_asset := default (py.lower asset) (dict_get asset_map (py.lower asset)) in
  let loaded := _load_price_csv disk cls api_asset false in
  let lookup := default [] (_price_lookup_cache loaded.1 !! api_asset) in
  (get_price_at_time disk cls asset eval_time).2 = Some p →
  ∃ k, Some k ∈ dict_keys lookup
    ∧ Z.abs (k - rounded eval_time) ≤ 300 * second_ns
    ∧ dict_get lookup (Some k) = Some p
    ∧ (is_Some (dict_get lookup (Some (rounded eval_time))) → k = rounded eval_time).
Proof.
  simpl. rewrite get_price_at_time_loaded. simpl.
  destruct (_load_price_csv _ _ _ _).2 as [df|]; [|done].
  destruct (pd.empty df); [done|].
  set (lookup := default [] _). unfold resolve.
  destruct (dict_get lookup (Some (rounded eval_time))) as [p0|] eqn:Hexact.
  - intros [= <-]. exists (rounded eval_time).
    split; [by eapply dict_get_Some_keys|]. split; [|done].
    unfold second_ns. lia.
  - destruct (closest lookup (rounded eval_time)) as [c|] eqn:Hc; [|done].
    intros Hp. apply closest_Some in Hc as [Hin Htol].
    exists c. split; [done|]. split; [exact Htol|]. split; [done|].
    by intros [? ?].
Qed.

End resolve_extras.

(** A run of [price_within_tolerance] on [sample.disk_btc]. *)
Lemma price_within_tolerance_witness :
  ∃ k, (Z.abs (k - PriceCSVLoader.rounded sample.half_past_seven)
        ≤ 300 * PriceCSVLoader.second_ns)%Z
    ∧ k = 1704067800000000000%Z.
Proof.
  destruct (price_within_tolerance sample.disk_btc sample.fresh "btc" sample.half_past_seven
              (Some (Q2Qc (inject_Z 42000)))) as (k & Hin & Htol & _).
  - vm_compute. reflexivity.
  - exists k. split; [exact Htol|].
    vm_compute in Hin. apply list_elem_of_singleton in Hin. by injection Hin.
Defined.

Section dict_keys_facts.
Context {K V : Type} `{EqDecision K}.

Lemma dict_keys_set (d : dict K V) (k k' : K) (v : V) :
  k' ∈ dict_keys (dict_set d k v) ↔ k' ∈ dict_keys d ∨ k' = k.
Proof.
  unfold dict_keys. induction d as [|[k0 v0] d IH]; simpl.
  - rewrite list_elem_of_singleton. split; [by right|].
    intros [?%elem_of_nil|?]; done.
  - case_decide as Hk; simpl.
    + subst. rewrite !elem_of_cons. naive_solver.
    + rewrite !elem_of_cons, IH. naive_solver.
Qed.

Lemma dict_set_keys_NoDup (d : dict K V) (k : K) (v : V) :
  NoDup (dict_keys d) → NoDup (dict_keys (dict_set d k v)).
Proof.
  induction d as [|[k0 v0] d IH]; simpl.
  - intros _. apply NoDup_singleton.
  - intros [Hk0 Hd]%NoDup_cons. case_decide as Hk; simpl.
    + subst. by apply NoDup_cons.
    + apply NoDup_cons. split; [|by apply IH].
      intros [Hin| ->]%dict_keys_set; done.
Qed.

Lemma dict_get_None_keys (d : dict K V) (k : K) :
  dict_get d k = None ↔ k ∉ dict_keys d.
Proof.
  unfold dict_keys. induction d as [|[k0 v0] d IH]; simpl.
  - split; [intros _ ?%elem_of_nil; done|done].
  - case_decide as Hk.
    + subst. split; [done|]. intros Hn. exfalso. apply Hn, list_elem_of_here.
    + rewrite IH, not_elem_of_cons. naive_solver.
Qed.

End dict_keys_facts.

Section build_lookup_extras.
Context `{!Library}.
Import PriceCSVLoader.
Local Open Scope list_scope.



End build_lookup_extras.


Section cache_facts.
Context `{!Library}.
Import PriceCSVLoader.
Local Open Scope Z_scope.

Lemma lower_ascii_idemp (a : ascii) : py.lower_ascii (py.lower_ascii a) = py.lower_ascii a.
Proof. destruct a as [[] [] [] [] [] [] [] []]; vm_compute; reflexivity. Qed.

Lemma lower_idemp (s : string) : py.lower (py.lower s) = py.lower s.
Proof. induction s as [|a s IH]; simpl; [done|]. by rewrite lower_ascii_idemp, IH. Qed.

(** The name a lookup loads under is in lower case. *)
Lemma api_asset_lower (asset : string) :
  py.lower (default (py.lower asset) (dict_get asset_map (py.lower asset)))
  = default (py.lower asset) (dict_get asset_map (py.lower asset)).
Proof.
  unfold asset_map. simpl.
  repeat (case_decide; [reflexivity|]). simpl. apply lower_idemp.
Qed.

(** What the load from the file returns, and the index it leaves under
    [key], do not depend on the caches it starts from, but for the
    index under [key] when the load fails. *)
Lemma load_from_file_agree disk cls cls' key csv_file :
  _price_lookup_cache cls !! key = _price_lookup_cache cls' !! key →
  (load_from_file disk cls key csv_file).2 = (load_from_file disk cls' key csv_file).2
  ∧ _price_lookup_cache (load_from_file disk cls key csv_file).1 !! key
    = _price_lookup_cache (load_from_file disk cls' key csv_file).1 !! key.
Proof.
  intros Hagree. unfold load_from_file.
  destruct (_ ≫= _) as [df|e]; [|done].
  case_decide; [done|].
  destruct (_ ≫= _) as [col|e]; [|done].
  destruct (build_lookup _ _ _) as [lookup|e]; [|done].
  simpl. by rewrite !lookup_insert_eq.
Qed.

(** A load from the file touches the caches under [key] only. *)
Lemma load_from_file_frame disk cls key csv_file k :
  k ≠ key →
  _price_cache (load_from_file disk cls key csv_file).1 !! k = _price_cache cls !! k
  ∧ _price_lookup_cache (load_from_file disk cls key csv_file).1 !! k
    = _price_lookup_cache cls !! k
  ∧ _file_mtime_cache (load_from_file disk cls key csv_file).1 !! k
    = _file_mtime_cache cls !! k.
Proof.
  intros Hk. unfold load_from_file.
  destruct (_ ≫= _) as [df|e]; [|done].
  case_decide; [done|].
  destruct (_ ≫= _) as [col|e]; simpl.
  - destruct (build_lookup _ _ _) as [lookup|e]; simpl;
      destruct (st_mtime disk csv_file); simpl;
      rewrite ?lookup_insert_ne by done; done.
  - destruct (st_mtime disk csv_file); simpl;
      rewrite ?lookup_insert_ne by done; done.
Qed.

(** A load that returns a table, in terms of the caches it starts
    from. *)
Lemma load_from_file_Some disk cls key csv_file cls1 df :
  load_from_file disk cls key csv_file = (cls1, Some df) →
  ∃ lookup, ∀ cls',
    load_from_file disk cls' key csv_file =
    ({| _price_cache := <[key := df]> (_price_cache cls');
        _price_lookup_cache := <[key := lookup]> (_price_lookup_cache cls');
        _file_mtime_cache := match st_mtime disk csv_file with
                             | Return m => <[key := m]> (_file_mtime_cache cls')
                             | Raise _ => _file_mtime_cache cls'
                             end |}, Some df).
Proof.
  unfold load_from_file.
  destruct (_ ≫= _) as [df0|e]; [|done].
  case_decide; [done|].
  destruct (_ ≫= _) as [col|e]; [|done].
  destruct (build_lookup _ _ _) as [lookup|e]; [|done].
  simpl. intros [= _ <-]. exists lookup. intros cls'.
  by rewrite insert_insert_eq.
Qed.

(** Two states that agree under the key of an asset load alike. *)
Lemma _load_price_csv_agree disk cls cls' asset force_reload :
  _price_cache cls !! py.lower asset = _price_cache cls' !! py.lower asset →
  _price_lookup_cache cls !! py.lower asset = _price_lookup_cache cls' !! py.lower asset →
  _file_mtime_cache cls !! py.lower asset = _file_mtime_cache cls' !! py.lower asset →
  (_load_price_csv disk cls asset force_reload).2
  = (_load_price_csv disk cls' asset force_reload).2
  ∧ _price_lookup_cache (_load_price_csv disk cls asset force_reload).1 !! py.lower asset
    = _price_lookup_cache (_load_price_csv disk cls' asset force_reload).1 !! py.lower asset.
Proof.
  intros Hc Hl Hm. unfold _load_price_csv.
  destruct (dict_get ASSET_CSV_MAP _) as [name|]; [|done].
  set (csv_file := if exists_ disk _ then _ else _).
  destruct (negb (exists_ disk csv_file)); [done|].
  rewrite <- Hc, <- Hm.
  destruct (if negb force_reload then _ else _) as [cached|].
  - destruct (st_mtime disk csv_file) as [m|e].
    + destruct (Qle_bool _ _); [done|].
      apply load_from_file_agree. simpl. by rewrite !lookup_delete_eq.
    + by apply load_from_file_agree.
  - by apply load_from_file_agree.
Qed.

(** The answer of a lookup depends on the caches under the name it
    loads only. *)
Lemma get_price_at_time_agree disk cls cls' asset eval_time :
  let api_asset := default (py.lower asset) (dict_get asset_map (py.lower asset)) in
  _price_cache cls !! api_asset = _price_cache cls' !! api_asset →
  _price_lookup_cache cls !! api_asset = _price_lookup_cache cls' !! api_asset →
  _file_mtime_cache cls !! api_asset = _file_mtime_cache cls' !! api_asset →
  (get_price_at_time disk cls asset eval_time).2
  = (get_price_at_time disk cls' asset eval_time).2.
Proof.
  intros api_asset Hc Hl Hm.
  pose proof (get_price_at_time_loaded disk cls asset eval_time) as H1.
  pose proof (get_price_at_time_loaded disk cls' asset eval_time) as H1'.
  cbv zeta in H1, H1'. fold api_asset in H1, H1'. rewrite H1, H1'.
  pose proof (api_asset_lower asset) as Hlow. fold api_asset in Hlow.
  rewrite <- Hlow in Hc, Hl, Hm.
  destruct (_load_price_csv_agree disk cls cls' api_asset false Hc Hl Hm) as [H2 Hlk].
  rewrite Hlow in Hlk. rewrite H2.
  destruct (_load_price_csv disk cls' api_asset false).2 as [df|]; [|done].
  destruct (pd.empty df); [done|]. do 2 f_equal. exact Hlk.
Qed.

End cache_facts.

Section cache_extras.
Context `{!Library}.
Import PriceCSVLoader.
Local Open Scope Z_scope.

(** A load for an asset touches the caches under its key only. *)
Lemma _load_price_csv_frame disk cls asset force_reload k :
  k ≠ py.lower asset →
  _price_cache (_load_price_csv disk cls asset force_reload).1 !! k = _price_cache cls !! k
  ∧ _price_lookup_cache (_load_price_csv disk cls asset force_reload).1 !! k
    = _price_lookup_cache cls !! k
  ∧ _file_mtime_cache (_load_price_csv disk cls asset force_reload).1 !! k
    = _file_mtime_cache cls !! k.
Proof.
  intros Hk. unfold _load_price_csv.
  destruct (dict_get ASSET_CSV_MAP _) as [name|]; [|done].
  set (csv_file := if exists_ disk _ then _ else _).
  destruct (negb (exists_ disk csv_file)); [done|].
  destruct (if negb force_reload then _ else _) as [cached|].
  - destruct (st_mtime disk csv_file) as [m|e].
    + destruct (Qle_bool _ _); [done|].
      destruct (load_from_file_frame disk
                  {| _price_cache := delete (py.lower asset) (_price_cache cls);
                     _price_lookup_cache := delete (py.lower asset) (_price_lookup_cache cls);
                     _file_mtime_cache := _file_mtime_cache cls |}
                  (py.lower asset) csv_file k Hk) as (-> & -> & ->).
      simpl. by rewrite !lookup_delete_ne by done.
    + by apply load_from_file_frame.
  - by apply load_from_file_frame.
Qed.

Lemma get_price_at_time_state disk cls asset eval_time :
  (get_price_at_time disk cls asset eval_time).1
  = (_load_price_csv disk cls
       (default (py.lower asset) (dict_get asset_map (py.lower asset))) false).1.
Proof.
  unfold get_price_at_time.
  destruct (_load_price_csv _ _ _ _) as [cls' [df|]]; simpl; [|done].
  by destruct (pd.empty df).
Qed.

(** A lookup for one asset does not change what a later lookup for
    another asset answers. *)
Theorem lookups_of_assets_independent disk cls (a b : string) (t t' : Z) :
  default (py.lower a) (dict_get asset_map (py.lower a))
    ≠ default (py.lower b) (dict_get asset_map (py.lower b)) →
  (get_price_at_time disk (get_price_at_time disk cls a t).1 b t').2
  = (get_price_at_time disk cls b t').2.
Proof.
  intros Hab. rewrite get_price_at_time_state.
  set (api_a := default (py.lower a) _) in *.
  set (api_b := default (py.lower b) _) in *.
  assert (Hk : api_b ≠ py.lower api_a).
  { unfold api_a. rewrite api_asset_lower. fold api_a. done. }
  destruct (_load_price_csv_frame disk cls api_a false api_b Hk) as (Hc & Hl & Hm).
  by apply get_price_at_time_agree.
Qed.

(** Loading again after a load that returned a table, from the same
    files, returns the same table and leaves the caches as they are. *)
Theorem load_again_same disk cls asset :
  is_Some (_load_price_csv disk cls asset false).2 →
  _load_price_csv disk (_load_price_csv disk cls asset false).1 asset false
  = _load_price_csv disk cls asset false.
Proof.
  assert (Hshape : ∀ cls0,
            _load_price_csv disk cls0 asset false =
            match dict_get ASSET_CSV_MAP (py.lower asset) with
            | None => (cls0, None)
            | Some name =>
                let csv_file :=
                  if exists_ disk (path REAL_PRICE_DIR name) then path REAL_PRICE_DIR name
                  else match dict_get ASSET_CSV_FALLBACK (py.lower asset) with
                       | Some fallback_name =>
                           if bool_decide (fallback_name ≠ "")
                           then path REAL_PRICE_DIR fallback_name
                           else path REAL_PRICE_DIR name
                       | None => path REAL_PRICE_DIR name
                       end in
                if negb (exists_ disk csv_file) then (cls0, None)
                else match _price_cache cls0 !! py.lower asset with
                     | Some cached =>
                         match st_mtime disk csv_file with
                         | Return current_mtime =>
                             if Qle_bool current_mtime
                                  (default 0%Q (_file_mtime_cache cls0 !! py.lower asset))
                             then (cls0, Some cached)
                             else load_from_file disk
                                    {| _price_cache := delete (py.lower asset) (_price_cache cls0);
                                       _price_lookup_cache :=
                                         delete (py.lower asset) (_price_lookup_cache cls0);
                                       _file_mtime_cache := _file_mtime_cache cls0 |}
                                    (py.lower asset) csv_file
                         | Raise _ => load_from_file disk cls0 (py.lower asset) csv_file
                         end
                     | None => load_from_file disk cls0 (py.lower asset) csv_file
                     end
            end) by reflexivity.
  rewrite !Hshape.
  destruct (dict_get ASSET_CSV_MAP (py.lower asset)) as [name|]; [|by intros [? ?]].
  cbv zeta. generalize (if exists_ disk (path REAL_PRICE_DIR name)
                        then path REAL_PRICE_DIR name
                        else match dict_get ASSET_CSV_FALLBACK (py.lower asset) with
                             | Some fallback_name =>
                                 if bool_decide (fallback_name ≠ "")
                                 then path REAL_PRICE_DIR fallback_name
                                 else path REAL_PRICE_DIR name
                             | None => path REAL_PRICE_DIR name
                             end).
  intros csv_file. clear Hshape.
  destruct (negb (exists_ disk csv_file)) eqn:Hex; [by intros [? ?]|].
  assert (Hloaded : ∀ cls0 cls1 df,
            load_from_file disk cls0 (py.lower asset) csv_file = (cls1, Some df) →
            match _price_cache cls1 !! py.lower asset with
            | Some cached =>
                match st_mtime disk csv_file with
                | Return current_mtime =>
                    if Qle_bool current_mtime
                         (default 0%Q (_file_mtime_cache cls1 !! py.lower asset))
                    then (cls1, Some cached)
                    else load_from_file disk
                           {| _price_cache := delete (py.lower asset) (_price_cache cls1);
                              _price_lookup_cache :=
                                delete (py.lower asset) (_price_lookup_cache cls1);
                              _file_mtime_cache := _file_mtime_cache cls1 |}
                           (py.lower asset) csv_file
                | Raise _ => load_from_file disk cls1 (py.lower asset) csv_file
                end
            | None => load_from_file disk cls1 (py.lower asset) csv_file
            end = (cls1, Some df)).
  { intros cls0 cls1 df Hload.
    destruct (load_from_file_Some _ _ _ _ _ _ Hload) as (lookup & Hany).
    pose proof (Hany cls0) as H0. rewrite Hload in H0.
    assert (Hcls : cls1 = (load_from_file disk cls0 (py.lower asset) csv_file).1)
      by (by rewrite Hload).
    rewrite (Hany cls0) in Hcls. cbn [fst] in Hcls.
    assert (Hc1 : _price_cache cls1 !! py.lower asset = Some df).
    { rewrite Hcls. simpl. by rewrite lookup_insert_eq. }
    rewrite Hc1.
    destruct (st_mtime disk csv_file) as [m|e] eqn:Hm.
    - assert (Hm1 : _file_mtime_cache cls1 !! py.lower asset = Some m).
      { rewrite Hcls. simpl. by rewrite lookup_insert_eq. }
      rewrite Hm1. simpl.
      assert (Hle : Qle_bool m m = true) by (apply Qle_bool_iff, Qle_refl).
      by rewrite Hle.
    - rewrite (Hany cls1). f_equal. rewrite Hcls at 4. rewrite Hcls. simpl.
      by rewrite !insert_insert_eq. }
  destruct (_price_cache cls !! py.lower asset) as [cached|] eqn:Hcached.
  - destruct (st_mtime disk csv_file) as [m|e] eqn:Hm.
    + destruct (Qle_bool m _) eqn:Hle.
      * intros _. cbn [fst]. by rewrite Hcached, Hle.
      * destruct (load_from_file _ _ _ _) as [cls1 [df|]] eqn:Hload; [|by intros [? ?]].
        intros _. cbn [fst]. exact (Hloaded _ _ _ Hload).
    + destruct (load_from_file _ _ _ _) as [cls1 [df|]] eqn:Hload; [|by intros [? ?]].
      intros _. cbn [fst]. exact (Hloaded _ _ _ Hload).
  - destruct (load_from_file _ _ _ _) as [cls1 [df|]] eqn:Hload; [|by intros [? ?]].
    intros _. cbn [fst]. by eapply Hloaded.
Qed.

(** When the price file is newer than the cached table, a lookup
    answers as it does from empty caches: the cached table and index
    are not used. *)
Theorem stale_cache_is_reloaded disk cls asset name (m : Q) eval_time :
  let api_asset := default (py.lower asset) (dict_get asset_map (py.lower asset)) in
  dict_get ASSET_CSV_MAP api_asset = Some name →
  exists_ disk (path REAL_PRICE_DIR name) = true →
  is_Some (_price_cache cls !! api_asset) →
  st_mtime disk (path REAL_PRICE_DIR name) = Return m →
  (default 0%Q (_file_mtime_cache cls !! api_asset) < m)%Q →
  (get_price_at_time disk cls asset eval_time).2
  = (get_price_at_time disk (clear_cache cls None) asset eval_time).2.
Proof.
  intros api_asset Hname Hex [cached Hcached] Hm Hlt.
  pose proof (get_price_at_time_loaded disk cls asset eval_time) as H1.
  pose proof (get_price_at_time_loaded disk (clear_cache cls None) asset eval_time) as H1'.
  cbv zeta in H1, H1'. fold api_asset in H1, H1'. rewrite H1, H1'. clear H1 H1'.
  pose proof (api_asset_lower asset) as Hlow. fold api_asset in Hlow.
  assert (Hnle : Qle_bool m (default 0%Q (_file_mtime_cache cls !! api_asset)) = false).
  { apply not_true_is_false. intros Hle%Qle_bool_iff. by apply Qlt_not_le in Hlt. }
  unfold _load_price_csv. rewrite Hlow, Hname. cbv beta iota zeta.
  rewrite Hex. cbv beta iota. rewrite ?Hex. cbn [negb clear_cache _price_cache _file_mtime_cache].
  rewrite Hcached, Hm, Hnle, lookup_empty.
  destruct (load_from_file_agree disk
              {| _price_cache := delete api_asset (_price_cache cls);
                 _price_lookup_cache := delete api_asset (_price_lookup_cache cls);
                 _file_mtime_cache := _file_mtime_cache cls |}
              {| _price_cache := ∅; _price_lookup_cache := ∅; _file_mtime_cache := ∅ |}
              api_asset (path REAL_PRICE_DIR name)) as [H2 Hlk];
    [simpl; by rewrite lookup_delete_eq, lookup_empty|].
  rewrite H2.
  set (l0 := load_from_file disk
               {| _price_cache := ∅; _price_lookup_cache := ∅; _file_mtime_cache := ∅ |}
               api_asset (path REAL_PRICE_DIR name)) in *.
  destruct (l0.2) as [df|]; [|reflexivity].
  destruct (pd.empty df); [reflexivity|]. do 2 f_equal. exact Hlk.
Qed.


(** Clearing the cache under an alias, a name the lookup translates
    before loading, clears nothing the lookup uses. *)
Theorem clear_cache_misses_alias disk cls asset eval_time :
  asset ≠ "" →
  default (py.lower asset) (dict_get asset_map (py.lower asset)) ≠ py.lower asset →
  (get_price_at_time disk (clear_cache cls (Some asset)) asset eval_time).2
  = (get_price_at_time disk cls asset eval_time).2.
Proof.
  intros Hne Hapi. unfold clear_cache. rewrite bool_decide_eq_true_2 by done.
  apply get_price_at_time_agree; simpl; by rewrite lookup_delete_ne.
Qed.

End cache_extras.

(** A run of [lookups_of_assets_independent]: a lookup for btc before
    one for eth, on [sample.disk_btc]. *)
Lemma lookups_of_assets_independent_witness :
  (PriceCSVLoader.get_price_at_time sample.disk_btc
     (PriceCSVLoader.get_price_at_time sample.disk_btc sample.fresh "btc"
        sample.half_past_seven).1 "eth" sample.half_past_seven).2
  = (PriceCSVLoader.get_price_at_time sample.disk_btc sample.fresh "eth"
       sample.half_past_seven).2.
Proof.
  apply (lookups_of_assets_independent sample.disk_btc sample.fresh "btc" "eth").
  intros Heq. vm_compute in Heq. discriminate Heq.
Defined.

(** A run of [load_again_same] on [sample.disk_btc]. *)
Lemma load_again_same_witness :
  PriceCSVLoader._load_price_csv sample.disk_btc
    (PriceCSVLoader._load_price_csv sample.disk_btc sample.fresh "btc" false).1 "btc" false
  = PriceCSVLoader._load_price_csv sample.disk_btc sample.fresh "btc" false.
Proof.
  apply (load_again_same sample.disk_btc sample.fresh "btc").
  vm_compute. eexists. reflexivity.
Defined.

(** A run of [stale_cache_is_reloaded]: the caches of
    [sample.cached_301] were filled at time 1, the file is of time 2. *)
Lemma stale_cache_is_reloaded_witness :
  let disk := {| PriceCSVLoader.exists_ := PriceCSVLoader.exists_ sample.disk_btc;
                 PriceCSVLoader.st_mtime := λ _, Return 2%Q;
                 PriceCSVLoader.read_text := PriceCSVLoader.read_text sample.disk_btc |} in
  (PriceCSVLoader.get_price_at_time disk sample.cached_301 "btc" sample.half_past_seven).2
  = (PriceCSVLoader.get_price_at_time disk
       (PriceCSVLoader.clear_cache sample.cached_301 None) "btc" sample.half_past_seven).2.
Proof.
  intros disk.
  apply (stale_cache_is_reloaded disk sample.cached_301 "btc" "btc_7d.csv" 2%Q).
  - reflexivity.
  - vm_compute. reflexivity.
  - vm_compute. eexists. reflexivity.
  - reflexivity.
  - vm_compute. reflexivity.
Defined.


(** A run of [clear_cache_misses_alias]: tao_bittensor is looked up
    under tao. *)
Lemma clear_cache_misses_alias_witness :
  (PriceCSVLoader.get_price_at_time sample.disk_btc
     (PriceCSVLoader.clear_cache sample.cached_301 (Some "tao_bittensor")) "tao_bittensor"
     sample.half_past_seven).2
  = (PriceCSVLoader.get_price_at_time sample.disk_btc sample.cached_301 "tao_bittensor"
       sample.half_past_seven).2.
Proof.
  apply (clear_cache_misses_alias sample.disk_btc sample.cached_301 "tao_bittensor").
  - discriminate.
  - intros Heq. vm_compute in Heq. discriminate Heq.
Defined.

Section batch_extras.
Context `{!Library}.
Import PriceCSVLoader.
Local Open Scope Z_scope.

Lemma foldl_dict_set_keys {K V} `{EqDecision K} (f : K → V) (l : list K) (d : dict K V) :
  (NoDup (dict_keys d) → NoDup (dict_keys (foldl (λ d t, dict_set d t (f t)) d l)))
  ∧ ∀ k, k ∈ dict_keys (foldl (λ d t, dict_set d t (f t)) d l) ↔ k ∈ dict_keys d ∨ k ∈ l.
Proof.
  revert d. induction l as [|t l IH]; intros d; cbn [foldl].
  - split; [done|]. intros k. rewrite elem_of_nil. naive_solver.
  - destruct (IH (dict_set d t (f t))) as [Hnd Hin]. split.
    + intros Hd. by apply Hnd, dict_set_keys_NoDup.
    + intros k. rewrite Hin, dict_keys_set, elem_of_cons. naive_solver.
Qed.

(** The mapping [fetch_prices_batch] returns has no instant twice and
    no instant that was not asked for; for an empty list it is empty and
    the caches are not touched. *)
Theorem fetch_prices_batch_keys disk cls asset (eval_times : list Z) :
  NoDup (dict_keys (fetch_prices_batch disk cls asset eval_times).2)
  ∧ (∀ k, k ∈ dict_keys (fetch_prices_batch disk cls asset eval_times).2 → k ∈ eval_times)
  ∧ fetch_prices_batch disk cls asset [] = (cls, []).
Proof.
  split; [|split; [|done]].
  - destruct eval_times as [|t ts]; [apply NoDup_nil_2|].
    rewrite fetch_prices_batch_loaded by done. cbv zeta.
    destruct (_load_price_csv _ _ _ _).2 as [df|]; [|apply NoDup_nil_2].
    destruct (pd.empty df); [apply NoDup_nil_2|].
    apply (foldl_dict_set_keys (λ t, resolve _ t)). apply NoDup_nil_2.
  - intros k. destruct eval_times as [|t ts]; [done|].
    rewrite fetch_prices_batch_loaded by done. cbv zeta.
    destruct (_load_price_csv _ _ _ _).2 as [df|]; [|by intros ?%elem_of_nil].
    destruct (pd.empty df); [by intros ?%elem_of_nil|].
    intros Hk. apply (foldl_dict_set_keys (λ t, resolve _ t)) in Hk as [Hk|Hk]; [|done].
    by apply elem_of_nil in Hk.
Qed.

End batch_extras.

Section load_prices_extras.
Context `{!Library}.
Import PriceCSVLoader.
Local Open Scope list_scope.

Lemma dict_keys_set_new {K V} `{EqDecision K} (d : dict K V) (k : K) (v : V) :
  k ∉ dict_keys d → dict_keys (dict_set d k v) = dict_keys d ++ [k].
Proof.
  unfold dict_keys. induction d as [|[k0 v0] d IH]; simpl; [done|].
  intros [Hk Hd]%not_elem_of_cons. rewrite decide_False by done.
  rewrite fmap_cons. simpl. f_equal. by apply IH.
Qed.

Lemma load_prices_fold_keys disk (names : list string) cls (results : dict string Z) :
  NoDup (dict_keys results ++ names) →
  dict_keys
    (foldl (λ '(cls, results) asset_name,
              let '(cls, df) := _load_price_csv disk cls asset_name false in
              match df with
              | None => (cls, dict_set results asset_name 0%Z)
              | Some df =>
                  if pd.empty df then (cls, dict_set results asset_name 0%Z)
                  else
                    let count :=
                      length (default [] (_price_lookup_cache cls !! asset_name)) in
                    (cls, dict_set results asset_name (Z.of_nat count))
              end)
       (cls, results) names).2
  = dict_keys results ++ names.
Proof.
  revert cls results. induction names as [|name names IH]; intros cls results Hnd.
  - simpl. by rewrite app_nil_r.
  - cbn [foldl].
    assert (Hnew : name ∉ dict_keys results).
    { apply NoDup_app in Hnd as (_ & Hdisj & _). intros Hin.
      apply (Hdisj name Hin), list_elem_of_here. }
    assert (Hstep : ∀ v, NoDup (dict_keys (dict_set results name v) ++ names)).
    { intros v. rewrite dict_keys_set_new, <- (assoc_L (++)) by done. exact Hnd. }
    destruct (_load_price_csv disk cls name false) as [cls' [df|]].
    + destruct (pd.empty df).
      * rewrite IH by apply Hstep. rewrite dict_keys_set_new, <- (assoc_L (++)) by done. done.
      * rewrite IH by apply Hstep. rewrite dict_keys_set_new, <- (assoc_L (++)) by done. done.
    + rewrite IH by apply Hstep. rewrite dict_keys_set_new, <- (assoc_L (++)) by done. done.
Qed.

(** [load_prices] reports on exactly the assets asked for: the one
    named, or btc, eth and tao in this order, whatever the files are. *)
Theorem load_prices_reports disk cls (asset : option string) :
  dict_keys (load_prices disk cls asset).2
  = match asset with
    | Some a => if bool_decide (a ≠ "") then [a] else ["btc"; "eth"; "tao"]
    | None => ["btc"; "eth"; "tao"]
    end.
Proof.
  assert (Hall : NoDup (dict_keys ASSET_CSV_MAP)).
  { unfold ASSET_CSV_MAP, dict_keys. simpl.
    repeat (apply NoDup_cons; split; [set_solver|]). apply NoDup_nil_2. }
  unfold load_prices.
  destruct asset as [a|]; [case_bool_decide|].
  - rewrite load_prices_fold_keys; [done|]. simpl. apply NoDup_singleton.
  - rewrite load_prices_fold_keys; done.
  - rewrite load_prices_fold_keys; done.
Qed.

(** The count [load_prices] reports is read under the name as it was
    given, while the index is stored under the name in lower case: for
    a name with a capital letter the count is 0, whether or not the
    table loaded. *)
Theorem load_prices_counts_under_given_name disk cls (a : string) :
  a ≠ "" → py.lower a ≠ a → _price_lookup_cache cls !! a = None →
  (load_prices disk cls (Some a)).2 = [(a, 0%Z)].
Proof.
  intros Hne Hlow Hnone. unfold load_prices.
  rewrite bool_decide_eq_true_2 by done. cbn [foldl].
  destruct (_load_price_csv_frame disk cls a false a) as (_ & Hl & _); [done|].
  destruct (_load_price_csv disk cls a false) as [cls' [df|]] eqn:Hload; [|done].
  destruct (pd.empty df); [done|].
  cbn [fst] in Hl.
  exact (f_equal (λ o : option (dict (option Z) price),
                    [(a, Z.of_nat (length (default [] o)))]) (eq_trans Hl Hnone)).
Qed.

End load_prices_extras.

(** A run of [load_prices_counts_under_given_name]: the table of
    [sample.disk_btc] loads, the count reported for BTC is 0. *)
Lemma load_prices_counts_under_given_name_witness :
  (PriceCSVLoader.load_prices sample.disk_btc sample.fresh (Some "BTC")).2 = [("BTC", 0%Z)]
  ∧ is_Some (PriceCSVLoader._load_price_csv sample.disk_btc sample.fresh "BTC" false).2.
Proof.
  split.
  - apply (load_prices_counts_under_given_name sample.disk_btc sample.fresh "BTC").
    + discriminate.
    + intros Heq. vm_compute in Heq. discriminate Heq.
    + reflexivity.
  - vm_compute. eexists. reflexivity.
Defined.

(** A run of [fetch_prices_batch_keys]: an instant asked for twice has
    one entry. *)
Lemma fetch_prices_batch_keys_witness :
  dict_keys (PriceCSVLoader.fetch_prices_batch sample.disk_btc sample.fresh "btc"
               [sample.half_past_seven; sample.half_past_seven]).2
  = [sample.half_past_seven]
  ∧ NoDup [sample.half_past_seven].
Proof.
  assert (Hkeys : dict_keys (PriceCSVLoader.fetch_prices_batch sample.disk_btc sample.fresh
                               "btc" [sample.half_past_seven; sample.half_past_seven]).2
                  = [sample.half_past_seven]) by (vm_compute; reflexivity).
  split; [exact Hkeys|]. rewrite <- Hkeys.
  apply (fetch_prices_batch_keys sample.disk_btc sample.fresh "btc"
           [sample.half_past_seven; sample.half_past_seven]).
Defined.

(** ** Latest predictions and new rows *)

Section csv_extras.
Context `{!Library}.
Local Open Scope list_scope.

Lemma mapM_Return_length {A B} (f : A → Exc B) (l : list A) (l' : list B) :
  mapM f l = Return l' → length l' = length l.
Proof.
  revert l'. induction l as [|x l IH]; intros l'; simpl.
  - by intros [= <-].
  - destruct (f x) as [y|e]; simpl; [|done].
    destruct (mapM f l) as [k|e]; simpl; [|done].
    intros [= <-]. simpl. f_equal. by apply IH.
Qed.

Lemma head_length (n : Z) (df : pd.DataFrame) :
  (0 ≤ n)%Z →
  (length (pd.rows (pd.head n df)) ≤ Z.to_nat n
   ∧ length (pd.rows (pd.head n df)) ≤ length (pd.rows df))%nat.
Proof.
  intros Hn. unfold pd.head. simpl. rewrite decide_True by done.
  rewrite length_take. lia.
Qed.

(** [get_latest_predictions] of the store returns at most [limit]
    entries, and no more than the stored table has rows; for a source
    without table it returns the empty list. *)
Theorem latest_predictions_bounded (self : DataManager.t) (miner_name : string) (limit : Z)
    (l : list (dict string (option pd.Cell))) :
  (0 ≤ limit)%Z →
  DataManager.get_latest_predictions self miner_name limit = Return l →
  (length l ≤ Z.to_nat limit)%nat
  ∧ match DataManager.miner_data self !! miner_name with
    | Some df => (length l ≤ length (pd.rows df))%nat
    | None => l = []
    end.
Proof.
  intros Hlimit. unfold DataManager.get_latest_predictions.
  destruct (DataManager.miner_data self !! miner_name) as [df|].
  - unfold CSVParser.get_latest_predictions.
    destruct (pd.empty df).
    + intros [= <-]. simpl. lia.
    + set (df_sorted := if decide ("timestamp" ∈ pd.columns df) then _ else _).
      intros Hl%mapM_Return_length. rewrite Hl.
      destruct (head_length limit df_sorted Hlimit) as [H1 H2].
      split; [exact H1|].
      assert (Hsorted : length (pd.rows df_sorted) = length (pd.rows df)).
      { unfold df_sorted. repeat case_decide; simpl.
        - apply Permutation_length, merge_sort_Permutation.
        - apply Permutation_length, merge_sort_Permutation.
        - apply length_reverse. }
      lia.
  - intros [= <-]. split; [simpl; lia|done].
Qed.

Lemma zip_filter_sublist {A} (l : list A) (bs : list bool) :
  (fst <$> filter (λ rb : A * bool, negb rb.2) (zip l bs)) `sublist_of` l.
Proof.
  revert bs. induction l as [|x l IH]; intros bs; simpl; [done|].
  destruct bs as [|b bs]; simpl; [apply sublist_nil_l|].
  rewrite filter_cons. simpl. destruct b; simpl.
  - by apply sublist_cons.
  - by apply sublist_skip.
Qed.

(** The delta [get_new_rows] computes is made of rows of the new
    snapshot, in their order: no row is invented, changed or moved. *)
Theorem get_new_rows_sublist (old_df new_df delta : pd.DataFrame) :
  CSVParser.get_new_rows old_df new_df = Return delta →
  pd.rows delta `sublist_of` pd.rows new_df.
Proof.
  unfold CSVParser.get_new_rows.
  destruct (pd.empty old_df); [by intros [= <-]|].
  destruct (pd.empty new_df); [intros [= <-]; apply sublist_nil_l|].
  case_decide.
  - intros [= <-]. simpl. apply zip_filter_sublist.
  - destruct (pd.getitem old_df _) as [old_col|e]; simpl; [|done].
    destruct (pd.getitem new_df _) as [new_col|e]; simpl; [|done].
    destruct (decide (_ = ∅)); intros [= <-]; [apply sublist_nil_l|].
    simpl. apply sublist_filter.
Qed.

End csv_extras.

(** A run of [latest_predictions_bounded]: two of the three rows of
    [sample.delta]. *)
Lemma latest_predictions_bounded_witness :
  ∃ l, DataManager.get_latest_predictions (sample.holds sample.delta) "miner" 2 = Return l
    ∧ (length l ≤ 2)%nat.
Proof.
  assert (Hrun : ∃ l, DataManager.get_latest_predictions (sample.holds sample.delta) "miner" 2
                      = Return l) by (vm_compute; eexists; reflexivity).
  destruct Hrun as [l Hl]. exists l. split; [exact Hl|].
  apply (latest_predictions_bounded (sample.holds sample.delta) "miner" 2 l); [lia|exact Hl].
Defined.

(** A run of [get_new_rows_sublist]: [sample.delta] against the table
    of its first row. *)
Lemma get_new_rows_sublist_witness :
  ∃ delta, CSVParser.get_new_rows (pd.head 1 sample.delta) sample.delta = Return delta
    ∧ pd.rows delta `sublist_of` pd.rows sample.delta.
Proof.
  assert (Hrun : ∃ delta, CSVParser.get_new_rows (pd.head 1 sample.delta) sample.delta
                          = Return delta) by (vm_compute; eexists; reflexivity).
  destruct Hrun as [delta Hd]. exists delta. split; [exact Hd|].
  apply (get_new_rows_sublist (pd.head 1 sample.delta) sample.delta delta Hd).
Defined.

(** ** Metrics of exact predictions *)

Section metrics_extras.
Import np MetricsCalculator.
Local Open Scope Q_scope.

Lemma compute_metrics_errors predictions actuals lower upper :
  let errors := zip_with np.sub (np.array actuals) (np.array predictions) in
  dict_get (compute_metrics predictions actuals lower upper) "mae"
    = Some (Float (np.to_float (np.mean (np.abs <$> errors))))
  ∧ dict_get (compute_metrics predictions actuals lower upper) "rmse"
    = Some (Sqrt (np.to_float (np.mean ((λ e, np.mul e e) <$> errors))))
  ∧ dict_get (compute_metrics predictions actuals lower upper) "bias"
    = Some (Float (np.to_float (np.mean errors))).
Proof.
  simpl. unfold compute_metrics.
  destruct (truthy lower && truthy upper); [|by repeat split].
  destruct (_ && _); by repeat split.
Qed.

Lemma foldl_add_zero (q : Q) (a : list Q) :
  q == 0 → Forall (λ x, x == 0) a →
  ∃ q', foldl add (Finite q) (array a) = Finite q' ∧ q' == 0.
Proof.
  intros Hq Ha. revert q Hq. induction Ha as [|x a Hx Ha IH]; intros q Hq; simpl.
  - by exists q.
  - apply IH. rewrite Hq, Hx. reflexivity.
Qed.

(** The mean of a non-empty array of zeros is the float 0. *)
Lemma mean_zero (a : list Q) :
  a ≠ [] → Forall (λ x, x == 0) a → to_float (mean (array a)) = Finite 0.
Proof.
  intros Hne Ha. unfold mean, sum, len.
  destruct (foldl_add_zero 0 a) as (s & -> & Hs); [reflexivity|done|].
  simpl. unfold array. rewrite length_fmap, len_ne0 by done. simpl.
  f_equal. change 0 with (Qred 0). apply Qred_complete.
  rewrite Hs. unfold Qdiv. apply Qmult_0_l.
Qed.

Lemma errors_zero (a : list Q) : Forall (λ x, x == 0) (zip_with Qminus a a).
Proof.
  induction a as [|x a IH]; simpl; constructor; [|done].
  unfold Qminus. apply Qplus_opp_r.
Qed.

(** Predictions that equal the actuals have no error: the mean
    absolute error, the root mean square error and the bias are 0. *)
Theorem exact_predictions_have_no_error (actuals : list Q) (lower upper : option (list Q)) :
  actuals ≠ [] →
  let m := calculate_prediction_metrics actuals actuals lower upper in
  dict_get m "mae" = Some (Float (Finite 0))
  ∧ dict_get m "rmse" = Some (Sqrt (Finite 0))
  ∧ dict_get m "bias" = Some (Float (Finite 0))
  ∧ dict_get m "n_predictions" = Some (Int (Z.of_nat (length actuals))).
Proof.
  intros Hne m. unfold m. rewrite calculate_prediction_metrics_unfold.
  rewrite !bool_decide_eq_false_2 by done. cbn [orb].
  rewrite Nat.min_id, firstn_all.
  destruct (compute_metrics_errors actuals actuals lower upper) as (-> & -> & ->).
  rewrite array_sub.
  pose proof (errors_zero actuals) as Hz.
  assert (Hlen : zip_with Qminus actuals actuals ≠ []) by (by destruct actuals).
  split; [|split; [|split]].
  - rewrite array_abs. rewrite mean_zero; [done|by destruct actuals|].
    apply Forall_fmap. eapply Forall_impl; [exact Hz|].
    intros x Hx. simpl. rewrite Hx. reflexivity.
  - rewrite (array_fmap_mul (λ q, q * q)) by done.
    rewrite mean_zero; [done|by destruct actuals|].
    apply Forall_fmap. eapply Forall_impl; [exact Hz|].
    intros x Hx. simpl. rewrite Hx. reflexivity.
  - by rewrite mean_zero.
  - unfold compute_metrics.
    destruct (truthy lower && truthy upper); [|reflexivity].
    destruct (_ && _); reflexivity.
Qed.

End metrics_extras.

(** A run of [exact_predictions_have_no_error]. *)
Lemma exact_predictions_have_no_error_witness :
  dict_get (MetricsCalculator.calculate_prediction_metrics [110; 90]%Q [110; 90]%Q None None)
    "mae"
  = Some (MetricsCalculator.Float (np.Finite 0)).
Proof.
  apply (exact_predictions_have_no_error [110; 90]%Q None None). discriminate.
Defined.
